(** * Tuya IoT Core expiry reminder: a shallow embedding of [run.py]

    The add-on parses a configured expiry date, computes how many days
    remain until it, and pushes notifications through the Home Assistant
    Supervisor API: once on startup and then on every hourly poll on which
    the number of remaining days equals one of the configured offsets.

    Layout of the development:
    - [Py]        the few Python builtins the program uses on strings and
                  integers ([str.strip], [str.split], [re.split], [int],
                  [str]);
    - [Calendar]  naive datetimes as records, the proleptic Gregorian
                  ordinal, instants as integer microseconds;
    - [Resolver]  [parse_expiry_date], parametric in the third-party
                  parsers it calls (dateutil, strptime, pytz), and
                  [Sample], one concrete behaviour of those parsers;
    - [Runtime]   a state-and-exception monad over a world holding the
                  wall clock, the HTTP peer and the trace of effects;
    - the methods of [NotificationScheduler], then [load_config],
      [list_mobile_apps] and [main];
    - the vocabulary of the properties and the worked scenarios;
    - the properties, one section per component. *)

From Stdlib Require Import ZArith List String Ascii Bool Lia.
From Stdlib Require Import DecimalString DecimalZ.
Import ListNotations.

Local Open Scope string_scope.
Local Open Scope Z_scope.

(* ===================================================================== *)
(** * Python builtins on strings and integers *)
(* ===================================================================== *)

Module Py.

(** Truthiness of a string: [not s] holds exactly for the empty string. *)
Definition truthy (s : string) : bool :=
  match s with EmptyString => false | _ => true end.

(** Truthiness of an optional string ([None] or [""] is falsy). *)
Definition truthy_opt (o : option string) : bool :=
  match o with Some s => truthy s | None => false end.

(** [str(n)] for an integer: decimal digits, a leading [-] when negative. *)
Definition str (n : Z) : string := NilZero.string_of_int (Z.to_int n).

(** The inverse reading of a decimal numeral, used to state what a
    rendered number denotes. *)
Definition read_decimal (s : string) : option Z :=
  option_map Z.of_int (NilZero.int_of_string s).

(** ASCII white space as [str.strip] and [int] see it: TAB, LF, VT, FF, CR,
    the four separators FS..US, and the blank. *)
Definition is_space (c : ascii) : bool :=
  let n := nat_of_ascii c in
  ((9 <=? n) && (n <=? 13) || (28 <=? n) && (n <=? 32))%nat.

Fixpoint lstrip (s : string) : string :=
  match s with
  | String c r => if is_space c then lstrip r else s
  | EmptyString => EmptyString
  end.

(** [rstrip]: a character is kept when it is not white space or when
    something survives to its right. *)
Fixpoint rstrip (s : string) : string :=
  match s with
  | EmptyString => EmptyString
  | String c r =>
      match rstrip r with
      | EmptyString => if is_space c then EmptyString else String c EmptyString
      | r' => String c r'
      end
  end.

(** [s.strip()] *)
Definition strip (s : string) : string := rstrip (lstrip s).

(** Splitting on every character for which [sep] holds; [n] separators
    give [n + 1] pieces, empty pieces included. This is [s.split(c)] for a
    one-character separator and [re.split] for a character class. *)
Fixpoint split_on (sep : ascii -> bool) (s : string) : list string :=
  match s with
  | EmptyString => [EmptyString]
  | String c r =>
      if sep c then EmptyString :: split_on sep r
      else match split_on sep r with
           | p :: ps => String c p :: ps
           | [] => [String c EmptyString]
           end
  end.

(** [s.split(".")] *)
Definition split_dot (s : string) : list string :=
  split_on (Ascii.eqb ".") s.

(** [re.split(r"[./-]", s)] *)
Definition re_split_date (s : string) : list string :=
  split_on (fun c => Ascii.eqb c "." || Ascii.eqb c "/" || Ascii.eqb c "-")%bool s.

(** Number of occurrences of a character. *)
Fixpoint count_char (c : ascii) (s : string) : nat :=
  match s with
  | EmptyString => O
  | String d r => ((if Ascii.eqb c d then 1 else 0) + count_char c r)%nat
  end.

Definition digit_of (c : ascii) : option Z :=
  let n := nat_of_ascii c in
  if ((48 <=? n) && (n <=? 57))%nat then Some (Z.of_nat n - 48) else None.

(** Digits of an [int] literal: at least one digit, single underscores
    allowed between digits. [acc] is the value read so far, [prev] tells
    whether the previous character was a digit. *)
Fixpoint int_digits (s : string) (acc : Z) (prev : bool) : option Z :=
  match s with
  | EmptyString => if prev then Some acc else None
  | String c r =>
      match digit_of c with
      | Some d => int_digits r (10 * acc + d) true
      | None =>
          if (Ascii.eqb c "_" && prev)%bool then
            match r with
            | String c' _ =>
                match digit_of c' with
                | Some _ => int_digits r acc false
                | None => None
                end
            | EmptyString => None
            end
          else None
      end
  end.

(** [int(s)] in base ten: surrounding white space is dropped, one sign is
    accepted; [None] stands for [ValueError]. *)
Definition int (s : string) : option Z :=
  match strip s with
  | String "+" r => int_digits r 0 false
  | String "-" r => option_map Z.opp (int_digits r 0 false)
  | r => int_digits r 0 false
  end.

End Py.

(* ===================================================================== *)
(** * Calendar: naive datetimes and instants *)
(* ===================================================================== *)

Module Calendar.

(** The fields of a [datetime.datetime]. *)
Record datetime : Type := mkDatetime {
  year : Z;
  month : Z;
  day : Z;
  hour : Z;
  minute : Z;
  second : Z;
  microsecond : Z
}.

Definition is_leap (y : Z) : bool :=
  (y mod 4 =? 0) && (negb (y mod 100 =? 0) || (y mod 400 =? 0)).

Definition days_in_month (y m : Z) : Z :=
  if m =? 2 then (if is_leap y then 29 else 28)
  else if (m =? 4) || (m =? 6) || (m =? 9) || (m =? 11) then 30
  else 31.

(** Number of days before January 1st of year [y]. *)
Definition days_before_year (y : Z) : Z :=
  let p := y - 1 in p * 365 + p / 4 - p / 100 + p / 400.

(** Number of days in year [y] before the first day of month [m]. *)
Definition days_before_month (y m : Z) : Z :=
  let cumulative := nth (Z.to_nat (m - 1))
                        [0; 31; 59; 90; 120; 151; 181; 212; 243; 273; 304; 334] 0 in
  cumulative + (if (2 <? m) && is_leap y then 1 else 0).

(** Proleptic Gregorian ordinal: 0001-01-01 is day 1. *)
Definition ymd2ord (y m d : Z) : Z :=
  days_before_year y + days_before_month y m + d.

(** The range checks of the [datetime] constructor. *)
Definition valid (dt : datetime) : bool :=
  (1 <=? year dt) && (year dt <=? 9999) &&
  (1 <=? month dt) && (month dt <=? 12) &&
  (1 <=? day dt) && (day dt <=? days_in_month (year dt) (month dt)) &&
  (0 <=? hour dt) && (hour dt <=? 23) &&
  (0 <=? minute dt) && (minute dt <=? 59) &&
  (0 <=? second dt) && (second dt <=? 59) &&
  (0 <=? microsecond dt) && (microsecond dt <=? 999999).

(** [datetime(y, m, d, H, M)]; [None] stands for [ValueError]. *)
Definition datetime_new (y m d H M : Z) : option datetime :=
  let dt := mkDatetime y m d H M 0 0 in
  if valid dt then Some dt else None.

Definition us_per_second : Z := 1000000.
Definition us_per_day : Z := 86400 * us_per_second.

(** Microseconds from 0001-01-01T00:00 to a naive datetime. *)
Definition to_micros (dt : datetime) : Z :=
  (((ymd2ord (year dt) (month dt) (day dt) - 1) * 24 + hour dt) * 60
     + minute dt) * 60 * us_per_second
  + second dt * us_per_second + microsecond dt.

(** A time zone as [pytz] hands it out: a name and the offset from UTC, in
    microseconds, that [localize] attaches to a naive local time. *)
Record tzinfo : Type := mkTz {
  tzname : string;
  utcoffset : datetime -> Z
}.

Definition utc : tzinfo := mkTz "UTC" (fun _ => 0).

(** A time-zone-aware datetime: local fields and their zone. *)
Record aware : Type := mkAware {
  naive : datetime;
  zone : tzinfo
}.

(** [tz.localize(dt)] *)
Definition localize (tz : tzinfo) (dt : datetime) : aware := mkAware dt tz.

(** The absolute instant of an aware datetime, in microseconds of UTC. *)
Definition instant (a : aware) : Z :=
  to_micros (naive a) - utcoffset (zone a) (naive a).

(** [ceil(a / b)] for integers, [b > 0]. *)
Definition ceil_div (a b : Z) : Z := - ((- a) / b).

(** [ceil((expiry - now).total_seconds() / 86400)]: the difference of two
    aware datetimes is a [timedelta], an exact count of microseconds; its
    quotient by one day is taken here as the exact rational, so the
    rounding of the intermediate floats is outside the model. *)
Definition days_remaining (now expiry : Z) : Z :=
  ceil_div (expiry - now) us_per_day.

End Calendar.

(* ===================================================================== *)
(** * Exceptions *)
(* ===================================================================== *)

(** The exceptions that escape the functions of [run.py]. *)
Inductive exn : Type :=
| ValueError (msg : string)
| UnknownTimeZoneError (name : string).

(** A call either returns a value or raises. *)
Inductive result (A : Type) : Type :=
| Ok (a : A)
| Raise (e : exn).

Arguments Ok {A} a.
Arguments Raise {A} e.

(* ===================================================================== *)
(** * DateTimeResolver: [parse_expiry_date] *)
(* ===================================================================== *)

Module Resolver.
Import Calendar.

(** A library parser only ever returns a well-formed [datetime]. *)
Definition checked (o : option datetime) : option datetime :=
  match o with
  | Some dt => if valid dt then Some dt else None
  | None => None
  end.

Definition obind {A B : Type} (o : option A) (f : A -> option B) : option B :=
  match o with Some a => f a | None => None end.

(** The flag handed to [dtparser.parse] in the ["auto"] branch. *)
Definition dayfirst (p0 p1 : Z) : bool :=
  (12 <? p0) || ((p0 <=? 12) && (p1 <=? 12)).

Section WithLibraries.

(** The third-party parsers, each as the function of its arguments that
    the program sees; [None] stands for any exception they raise.
    - [isoparse_lib s]          is [dateutil.parser.isoparse(s)];
    - [dtparse_lib s dayfirst]  is [dateutil.parser.parse(s, dayfirst=..)];
    - [strptime_lib s fmt]      is [datetime.strptime(s, fmt)];
    - [pytz_timezone name]      is [pytz.timezone(name)]. *)
Variable isoparse_lib : string -> option datetime.
Variable dtparse_lib : string -> bool -> option datetime.
Variable strptime_lib : string -> string -> option datetime.
Variable pytz_timezone : string -> option tzinfo.

Definition isoparse (s : string) : option datetime := checked (isoparse_lib s).
Definition dtparse (s : string) (df : bool) : option datetime :=
  checked (dtparse_lib s df).
Definition strptime (s fmt : string) : option datetime :=
  checked (strptime_lib s fmt).

(** The ["auto"] branch: split, read the first two components as
    integers, choose [dayfirst], and let dateutil parse the whole string.
    A missing component ([IndexError]) or a non-numeric one ([ValueError])
    ends in the surrounding [except]. *)
Definition parse_auto (s : string) : option datetime :=
  let parts := Py.re_split_date s in
  obind (nth_error parts 0) (fun a =>
  obind (Py.int a) (fun p0 =>
  obind (nth_error parts 1) (fun b =>
  obind (Py.int b) (fun p1 =>
  dtparse s (dayfirst p0 p1))))).

(** The second [try] block of [parse_expiry_date], entered when the ISO
    parse failed. *)
Definition parse_by_format (s date_format : string) : option datetime :=
  if String.eqb date_format "iso" then strptime s "%Y-%m-%d"
  else if String.eqb date_format "us" || String.eqb date_format "eu" then
    let fmt := if String.eqb date_format "us" then "%m/%d/%Y" else "%d/%m/%Y" in
    strptime s fmt
  else parse_auto s.

(** The date part: ISO first, then the branch on [date_format]. *)
Definition parse_date (s date_format : string) : option datetime :=
  match isoparse s with
  | Some dt => Some dt
  | None => parse_by_format s date_format
  end.

(** The time part: [HH:MM], midnight when that fails. *)
Definition parse_time (t : string) : Z * Z :=
  match strptime t "%H:%M" with
  | Some hhmm => (hour hhmm, minute hhmm)
  | None => (0, 0)
  end.

(** [time_str or "00:00"] *)
Definition time_or_default (time_str : option string) : string :=
  match time_str with
  | Some t => if Py.truthy t then t else "00:00"
  | None => "00:00"
  end.

(** [parse_expiry_date(date_str, time_str, tz_name, date_format)] *)
Definition parse_expiry_date (date_str : string) (time_str : option string)
    (tz_name date_format : string) : result aware :=
  match pytz_timezone tz_name with
  | None => Raise (UnknownTimeZoneError tz_name)
  | Some tz =>
      let s := Py.strip date_str in
      let t := Py.strip (time_or_default time_str) in
      match parse_date s date_format with
      | None => Raise (ValueError ("Cannot parse date: " ++ date_str))
      | Some dt =>
          let hhmm := parse_time t in
          match datetime_new (year dt) (month dt) (day dt) (fst hhmm) (snd hhmm) with
          | None => Raise (ValueError "datetime: argument out of range")
          | Some d => Ok (localize tz d)
          end
      end
  end.

End WithLibraries.

End Resolver.

(* ===================================================================== *)
(** * A small stand-in for the libraries *)
(* ===================================================================== *)

(** The resolver is stated for every behaviour of the third-party
    parsers. To run it on concrete inputs this module gives one
    behaviour: all-numeric dates and times only. *)
Module Sample.
Import Calendar.

Definition all_digits (s : string) : bool :=
  forallb (fun c => match Py.digit_of c with Some _ => true | None => false end)
          (list_ascii_of_string s).

(** A field of exactly [n] digits (or of one to [n] digits when [exact]
    is off). *)
Definition field (exact : bool) (n : nat) (s : string) : option Z :=
  let len := String.length s in
  if all_digits s && (if exact then Nat.eqb len n else (1 <=? len)%nat && (len <=? n)%nat)
  then Py.int s else None.

Definition date_of (y m d : option Z) : option datetime :=
  match y, m, d with
  | Some y, Some m, Some d => Some (mkDatetime y m d 0 0 0 0)
  | _, _, _ => None
  end.

(** [YYYY-MM-DD] only. *)
Definition isoparse (s : string) : option datetime :=
  match Py.split_on (Ascii.eqb "-") s with
  | [y; m; d] => date_of (field true 4 y) (field true 2 m) (field true 2 d)
  | _ => None
  end.

(** Three numeric components: day first when the first cannot be a month,
    or when asked to and the second can be one. *)
Definition dtparse (s : string) (df : bool) : option datetime :=
  match Py.re_split_date s with
  | [a; b; y] =>
      match field false 2 a, field false 2 b with
      | Some p0, Some p1 =>
          if (12 <? p0) || (df && (p1 <=? 12))
          then date_of (field true 4 y) (Some p1) (Some p0)
          else date_of (field true 4 y) (Some p0) (Some p1)
      | _, _ => None
      end
  | _ => None
  end.

Definition strptime (s fmt : string) : option datetime :=
  if String.eqb fmt "%H:%M" then
    match Py.split_on (Ascii.eqb ":") s with
    | [h; m] =>
        match field false 2 h, field false 2 m with
        | Some h, Some m => Some (mkDatetime 1900 1 1 h m 0 0)
        | _, _ => None
        end
    | _ => None
    end
  else if String.eqb fmt "%Y-%m-%d" then
    match Py.split_on (Ascii.eqb "-") s with
    | [y; m; d] => date_of (field true 4 y) (field false 2 m) (field false 2 d)
    | _ => None
    end
  else if String.eqb fmt "%m/%d/%Y" then
    match Py.split_on (Ascii.eqb "/") s with
    | [m; d; y] => date_of (field true 4 y) (field false 2 m) (field false 2 d)
    | _ => None
    end
  else if String.eqb fmt "%d/%m/%Y" then
    match Py.split_on (Ascii.eqb "/") s with
    | [d; m; y] => date_of (field true 4 y) (field false 2 m) (field false 2 d)
    | _ => None
    end
  else None.

Definition pytz_timezone (name : string) : option tzinfo :=
  if String.eqb name "UTC" then Some utc else None.

(** The resolver over this stand-in. *)
Definition parse_expiry_date : string -> option string -> string -> string -> result aware :=
  Resolver.parse_expiry_date isoparse dtparse strptime pytz_timezone.

End Sample.

(* ===================================================================== *)
(** * Runtime: the world the program acts on *)
(* ===================================================================== *)

Module Runtime.

Inductive level : Type := DEBUG | INFO | WARNING | ERROR.

(** What the process does to its environment, in the order it does it.
    A log call records its level and its message template. *)
Inductive event : Type :=
| Log (lvl : level) (template : string)
| Post (url : string) (bearer : string) (message : string)
| Get (url : string) (bearer : string)
| Sleep (seconds : Z).

(** One entry of the Supervisor's service listing. *)
Record service_entry : Type := mkService {
  svc_domain : string;
  svc_services : list string
}.

(** What an HTTP request comes back with: a response, a
    [requests.exceptions.RequestException], or any other exception. *)
Inductive response : Type :=
| Response (status_code : Z) (text : string) (json : list service_entry)
| RequestException
| OtherException.

(** The environment: the wall clock as the sequence of its readings (in
    microseconds of UTC), the HTTP peer as the sequence of its answers,
    how many of each were consumed, and the effects so far. Nothing is
    assumed about how time passes between two readings. *)
Record world : Type := mkWorld {
  clock : nat -> Z;
  peer : nat -> response;
  reads : nat;
  requests : nat;
  trace : list event
}.

(** A computation threads the world and may raise. *)
Definition M (A : Type) : Type := world -> result A * world.

Definition ret {A : Type} (a : A) : M A := fun w => (Ok a, w).

Definition bind {A B : Type} (m : M A) (f : A -> M B) : M B :=
  fun w =>
    match m w with
    | (Ok a, w') => f a w'
    | (Raise e, w') => (Raise e, w')
    end.

Definition raise {A : Type} (e : exn) : M A := fun w => (Raise e, w).

Definition emit (e : event) : M unit :=
  fun w => (Ok tt, mkWorld (clock w) (peer w) (reads w) (requests w) (trace w ++ [e])).

(** [datetime.now(timezone.utc)] *)
Definition now : M Z :=
  fun w => (Ok (clock w (reads w)),
            mkWorld (clock w) (peer w) (S (reads w)) (requests w) (trace w)).

(** An HTTP request: recorded, then answered by the peer. The exception
    a request raises is returned as a value, for the caller's [try]. *)
Definition http (e : event) : M response :=
  fun w => (Ok (peer w (requests w)),
            mkWorld (clock w) (peer w) (reads w) (S (requests w)) (trace w ++ [e])).

Definition log (lvl : level) (template : string) : M unit := emit (Log lvl template).

(** [asyncio.sleep] and [time.sleep] *)
Definition sleep (seconds : Z) : M unit := emit (Sleep seconds).

Definition when (b : bool) (m : M unit) : M unit := if b then m else ret tt.

End Runtime.

Import Runtime.

Declare Scope monad_scope.
Delimit Scope monad_scope with monad.
Notation "x <- m ;; k" := (bind m (fun x => k))
  (at level 61, m at next level, right associativity) : monad_scope.
Notation "m ;; k" := (bind m (fun _ => k))
  (at level 61, right associativity) : monad_scope.
Local Open Scope monad_scope.

(* ===================================================================== *)
(** * Notifier and SchedulerLoop: [NotificationScheduler] *)
(* ===================================================================== *)

Definition OPTIONS_PATH : string := "/data/options.json".
Definition ADVANCE_DAYS_DEFAULT : list Z := [30; 14; 7; 3; 1].
Definition SUPERVISOR_URL : string := "http://supervisor/core/api".

(** The configuration dictionary after [load_config]. *)
Record config : Type := mkConfig {
  cfg_expiry_date : string;
  cfg_expiry_time : option string;
  cfg_date_format : string;
  cfg_notify_service : string;
  cfg_push_count : Z;
  cfg_push_interval_min : Z;
  cfg_debug : bool;
  cfg_advance_days : list Z;
  cfg_expiry_dt : Calendar.aware
}.

(** The attributes of a [NotificationScheduler]. *)
Record scheduler : Type := mkScheduler {
  sch_config : config;
  hass_token : option string;
  notify_service : string;
  push_count : Z;
  push_interval_min : Z;
  advance_days : list Z;
  expiry_dt : Calendar.aware
}.

(** [NotificationScheduler.__init__]; [token] is
    [os.getenv("SUPERVISOR_TOKEN")]. *)
Definition scheduler_init (cfg : config) (token : option string) : M scheduler :=
  let self := mkScheduler cfg token (cfg_notify_service cfg) (cfg_push_count cfg)
                (cfg_push_interval_min cfg) (cfg_advance_days cfg) (cfg_expiry_dt cfg) in
  when (negb (Py.truthy_opt (hass_token self)))
       (log ERROR "SUPERVISOR_TOKEN is missing! Cannot send notifications.") ;;
  when (negb (Py.truthy (notify_service self)))
       (log WARNING "No notify_service configured!") ;;
  log INFO "Initialized NotificationScheduler using Supervisor API authentication." ;;
  ret self.

(** [NotificationScheduler._compose_message] *)
Definition _compose_message (days : Z) : string :=
  if days <? 0 then "Tuya IOT expired"
  else if days =? 0 then "Tuya IOT expires today"
  else ("Tuya IOT expires in " ++ Py.str days ++ " days")%string.

(** [ceil((self.expiry_dt - now).total_seconds() / 86400)] *)
Definition remaining_days_total (self : scheduler) (now : Z) : Z :=
  Calendar.days_remaining now (Calendar.instant (expiry_dt self)).

(** The token as it is spliced into the [Authorization] header. *)
Definition bearer (self : scheduler) : string :=
  match hass_token self with Some t => t | None => "None" end.

(** The [try] block of one attempt after the request came back: the
    response is classified and logged, an exception is logged. *)
Definition report_attempt (self : scheduler) (r : response) : M unit :=
  match r with
  | Response status_code _ _ =>
      when (cfg_debug (sch_config self))
           (log DEBUG "HTTP status: %s, response: %s") ;;
      if status_code =? 401 then
        log ERROR "Supervisor token rejected (401 Unauthorized)."
      else if 400 <=? status_code then
        log ERROR "Failed to send notification: %s %s"
      else
        log INFO "Notification sent successfully (%d/%d)"
  | RequestException | OtherException =>
      log ERROR "Exception while sending notification: %s"
  end.

(** The [for i in range(self.push_count)] loop of [_send_push], for the
    [todo] indices from [i] on. *)
Fixpoint push_attempts (self : scheduler) (url message : string)
    (todo : nat) (i : Z) : M unit :=
  match todo with
  | O => ret tt
  | S todo' =>
      r <- http (Post url (bearer self) message) ;;
      report_attempt self r ;;
      when (i <? push_count self - 1) (sleep (push_interval_min self * 60)) ;;
      push_attempts self url message todo' (i + 1)
  end.

(** [domain, service = self.notify_service.split(".")] *)
Definition split_service (s : string) : result (string * string) :=
  match Py.split_dot s with
  | [domain; service] => Ok (domain, service)
  | [] | [_] => Raise (ValueError "not enough values to unpack (expected 2, got 1)")
  | _ => Raise (ValueError "too many values to unpack (expected 2)")
  end.

(** [f"http://supervisor/core/api/services/{domain}/{service}"] *)
Definition service_url (domain service : string) : string :=
  ("http://supervisor/core/api/services/" ++ domain ++ "/" ++ service)%string.

(** [NotificationScheduler._send_push] *)
Definition _send_push (self : scheduler) (message : string) : M unit :=
  if negb (Py.truthy_opt (hass_token self)) || negb (Py.truthy (notify_service self)) then
    log ERROR "Cannot send notification: missing token or notify_service"
  else
    match split_service (notify_service self) with
    | Raise e => raise e
    | Ok (domain, service) =>
        let url := service_url domain service in
        when (cfg_debug (sch_config self))
             (log DEBUG "Sending notification: %s" ;;
              log DEBUG "POST URL: %s" ;;
              log DEBUG "Auth header: Bearer %s...<truncated>") ;;
        push_attempts self url message (Z.to_nat (push_count self)) 0
    end.

(** [NotificationScheduler.send_current_status_notification] *)
Definition send_current_status_notification (self : scheduler) : M unit :=
  t <- now ;;
  _send_push self (_compose_message (remaining_days_total self t)).

(** [NotificationScheduler.send_notification] *)
Definition send_notification (self : scheduler) (days_before : Z) : M unit :=
  _send_push self (_compose_message days_before).

(** The [for days_before in self.advance_days] loop of one poll. *)
Fixpoint check_advance_days (self : scheduler) (remaining : Z) (days : list Z) : M unit :=
  match days with
  | [] => ret tt
  | days_before :: rest =>
      when (remaining =? days_before) (send_notification self days_before) ;;
      check_advance_days self remaining rest
  end.

(** One turn of the [while True] loop of [schedule_notifications]. *)
Definition poll_once (self : scheduler) : M unit :=
  t <- now ;;
  check_advance_days self (remaining_days_total self t) (advance_days self) ;;
  sleep 3600.

(** The first [n] turns of the [while True] loop. *)
Fixpoint polling (self : scheduler) (n : nat) : M unit :=
  match n with
  | O => ret tt
  | S n' => poll_once self ;; polling self n'
  end.

(** Where a run of [schedule_notifications] stands: it returned, or it is
    still in its loop after the turns that were observed. *)
Inductive status : Type := Returned | Polling.

(** [NotificationScheduler.schedule_notifications], observed for the first
    [n] turns of its loop. *)
Definition schedule_notifications (self : scheduler) (n : nat) : M status :=
  if negb (Py.truthy_opt (hass_token self)) then
    log ERROR "Cannot send notifications: missing SUPERVISOR_TOKEN." ;;
    ret Returned
  else
    send_current_status_notification self ;;
    polling self n ;;
    ret Polling.

(* ===================================================================== *)
(** * Startup: [load_config], [list_mobile_apps], [main] *)
(* ===================================================================== *)

(** The options object read from [OPTIONS_PATH]; [None] is a missing key. *)
Record options : Type := mkOptions {
  opt_expiry_date : option string;
  opt_expiry_time : option string;
  opt_date_format : option string;
  opt_notify_service : option string;
  opt_push_count : option Z;
  opt_push_interval_min : option Z;
  opt_debug : option bool
}.

(** [cfg.setdefault(key, default)] followed by [cfg[key]] *)
Definition setdefault {A : Type} (o : option A) (default : A) : A :=
  match o with Some a => a | None => default end.

(** The mobile notify services of a listing. *)
Definition mobile_services (services : list service_entry) : list string :=
  flat_map (fun svc =>
    if String.eqb (svc_domain svc) "notify" then
      map (fun s => ("notify." ++ s)%string)
          (filter (String.prefix "mobile_app_") (svc_services svc))
    else []) services.

(** The [while attempt <= max_attempts] loop of [list_mobile_apps], for
    the [todo] attempts from [attempt] on. *)
Fixpoint list_attempts (token : string) (todo : nat) (attempt : Z) : M (list string) :=
  let unavailable := (log ERROR "Supervisor API unavailable after %d attempts." ;; ret []) in
  let retry (todo' : nat) :=
    (log WARNING "Attempt %d/%d: Supervisor API not ready (%s). Retrying in %ds..." ;;
     sleep (5 * attempt) ;;
     list_attempts token todo' (attempt + 1)) in
  match todo with
  | O => unavailable
  | S todo' =>
      r <- http (Get (SUPERVISOR_URL ++ "/services")%string token) ;;
      match r with
      | Response status_code _ services =>
          if (400 <=? status_code) && (status_code <? 600) then retry todo'
          else
            let found := mobile_services services in
            match found with
            | [] => log INFO "No mobile apps found."
            | _ => log INFO "Available mobile apps:" ;;
                   fold_right (fun _ k => log INFO "  %s" ;; k) (ret tt) found
            end ;;
            ret found
      | RequestException => retry todo'
      | OtherException =>
          log ERROR "Unexpected error while querying Supervisor services: %s" ;;
          unavailable
      end
  end.

(** [list_mobile_apps(logger)]; [token] is [os.getenv("SUPERVISOR_TOKEN")]. *)
Definition list_mobile_apps (token : option string) : M (list string) :=
  match token with
  | Some t =>
      if Py.truthy t then list_attempts t 5 1
      else log WARNING "SUPERVISOR_TOKEN missing, cannot list mobile apps" ;; ret []
  | None => log WARNING "SUPERVISOR_TOKEN missing, cannot list mobile apps" ;; ret []
  end.

Section Startup.

Variable isoparse_lib : string -> option Calendar.datetime.
Variable dtparse_lib : string -> bool -> option Calendar.datetime.
Variable strptime_lib : string -> string -> option Calendar.datetime.
Variable pytz_timezone : string -> option Calendar.tzinfo.

(** [load_config()], from the parsed options file. *)
Definition load_config (o : options) : result config :=
  let expiry_date := setdefault (opt_expiry_date o) "31/12/2025" in
  let expiry_time := setdefault (opt_expiry_time o) "12:00" in
  let date_format := setdefault (opt_date_format o) "auto" in
  match Resolver.parse_expiry_date isoparse_lib dtparse_lib strptime_lib pytz_timezone
          expiry_date (Some expiry_time) "UTC" date_format with
  | Raise e => Raise e
  | Ok dt =>
      Ok (mkConfig expiry_date (Some expiry_time) date_format
            (setdefault (opt_notify_service o) "notify.mobile_app_myphone")
            (setdefault (opt_push_count o) 1)
            (setdefault (opt_push_interval_min o) 60)
            (setdefault (opt_debug o) false)
            ADVANCE_DAYS_DEFAULT dt)
  end.

(** [main()], observed for the first [n] turns of the scheduler loop;
    [token] is the value of [SUPERVISOR_TOKEN] in the environment. *)
Definition main (o : options) (token : option string) (n : nat) : M status :=
  match load_config o with
  | Raise e => raise e
  | Ok cfg =>
      log INFO "Loaded config: expiry=%s, advance_days=%s, notify=%s, debug=%s" ;;
      list_mobile_apps token ;;
      self <- scheduler_init cfg token ;;
      now ;;
      log INFO "Tuya IOT Core expires in %d days" ;;
      schedule_notifications self n
  end.

End Startup.

(* ===================================================================== *)
(** * The vocabulary of the properties *)
(* ===================================================================== *)

Section Dates.
Import Calendar.

(** The instant of a wall-clock time given in UTC. *)
Definition utc_instant (y m d H M : Z) : Z :=
  instant (localize utc (mkDatetime y m d H M 0 0)).

(** Two datetimes on the same calendar day. *)
Definition same_date (a b : datetime) : Prop :=
  year a = year b /\ month a = month b /\ day a = day b.

(** The separators of [re.split(r"[./-]", s)]. *)
Definition date_separator (c : ascii) : bool :=
  (Ascii.eqb c "." || Ascii.eqb c "/" || Ascii.eqb c "-")%bool.

(** The first two components of a date string read as integers, as the
    ["auto"] branch needs them. *)
Definition leading_integers (s : string) : option (Z * Z) :=
  match Py.re_split_date s with
  | a :: b :: _ =>
      match Py.int a, Py.int b with
      | Some p0, Some p1 => Some (p0, p1)
      | _, _ => None
      end
  | _ => None
  end.

(** A string of white space only. *)
Definition blank (s : string) : bool :=
  forallb Py.is_space (list_ascii_of_string s).

(** A [date_format] that selects the ["auto"] branch: any value other
    than ["iso"], ["us"] and ["eu"]. *)
Definition selects_auto (date_format : string) : bool :=
  negb (String.eqb date_format "iso" || String.eqb date_format "us"
        || String.eqb date_format "eu").

End Dates.

Section Effects.

Definition is_log (e : event) : bool :=
  match e with Log _ _ => true | _ => false end.

Definition is_post (e : event) : bool :=
  match e with Post _ _ _ => true | _ => false end.

Definition is_http (e : event) : bool :=
  match e with Post _ _ _ | Get _ _ => true | _ => false end.

(** The effects other than logging. *)
Definition effects (evs : list event) : list event :=
  filter (fun e => negb (is_log e)) evs.

(** The POST requests among the effects. *)
Definition posts (evs : list event) : list event := filter is_post evs.

Definition count_http (evs : list event) : nat := List.length (filter is_http evs).

(** [steps w k evs w']: from [w] the program read the clock [k] times and
    produced the effects [evs], reaching [w']; every request it made is
    among [evs], and the clock and the peer are the ones of [w]. *)
Definition steps (w : world) (k : nat) (evs : list event) (w' : world) : Prop :=
  clock w' = clock w
  /\ peer w' = peer w
  /\ reads w' = (k + reads w)%nat
  /\ requests w' = (count_http evs + requests w)%nat
  /\ trace w' = (trace w ++ evs)%list.

(** A computation that returns [a] after the effects [evs]. *)
Definition returns {A : Type} (m : M A) (w : world) (a : A)
    (k : nat) (evs : list event) (w' : world) : Prop :=
  m w = (Ok a, w') /\ steps w k evs w'.

(** A computation that only logs. *)
Definition logs_only (m : M unit) : Prop :=
  forall w : world,
    exists (w' : world) (evs : list event),
      returns m w tt 0 evs w' /\ forallb is_log evs = true.

(** [n] requests with a pause between each two, none after the last. *)
Fixpoint attempt_pattern (request pause : event) (n : nat) : list event :=
  match n with
  | O => []
  | S n' =>
      request :: match n' with
                 | O => []
                 | S _ => pause :: attempt_pattern request pause n'
                 end
  end.

(** Log lines by level. *)
Definition is_info (e : event) : bool :=
  match e with Log INFO _ => true | _ => false end.

Definition is_error (e : event) : bool :=
  match e with Log ERROR _ => true | _ => false end.

(** An answer that [_send_push] reports as a success: a response with a
    status below 400. *)
Definition answered_ok (r : response) : bool :=
  match r with
  | Response status_code _ _ => status_code <? 400
  | RequestException | OtherException => false
  end.

(** The next [n] answers of the peer, from the world [w] on. *)
Definition answers (w : world) (n : nat) : list response :=
  map (fun i => peer w (i + requests w)%nat) (seq 0 n).

(** The pieces of a split put back together around dots. *)
Fixpoint join_dot (pieces : list string) : string :=
  match pieces with
  | [] => ""
  | [p] => p
  | p :: rest => (p ++ "." ++ join_dot rest)%string
  end.

(** The request of [list_mobile_apps]. *)
Definition listing_request (token : string) : event :=
  Get (SUPERVISOR_URL ++ "/services")%string token.

(** An answer after which [list_mobile_apps] tries again: a
    [RequestException], or a response that [raise_for_status] rejects. *)
Definition is_failure (r : response) : bool :=
  match r with
  | Response status_code _ _ => (400 <=? status_code) && (status_code <? 600)
  | RequestException => true
  | OtherException => false
  end.

(** [k] failed attempts from number [attempt] on: each a request followed
    by a sleep of five seconds times its number. *)
Fixpoint retry_pattern (token : string) (attempt : Z) (k : nat) : list event :=
  match k with
  | O => []
  | S k' =>
      listing_request token :: Sleep (5 * attempt)
        :: retry_pattern token (attempt + 1) k'
  end.

End Effects.

Section PollEffects.

Variable self : scheduler.
Variables domain service : string.

(** The effects, log aside, of one notification for [days]. *)
Definition notification_effects (days : Z) : list event :=
  attempt_pattern
    (Post (service_url domain service) (bearer self) (_compose_message days))
    (Sleep (push_interval_min self * 60))
    (Z.to_nat (push_count self)).

(** The offsets of the list that a value of days remaining hits. *)
Definition checkpoints_hit (remaining : Z) (days : list Z) : list Z :=
  filter (Z.eqb remaining) days.

(** The effects, log aside, of the poll made at the clock reading [t]. *)
Definition poll_effects (t : Z) : list event :=
  (flat_map notification_effects
     (checkpoints_hit (remaining_days_total self t) (advance_days self))
   ++ [Sleep 3600])%list.

End PollEffects.

(** ** Worked scenarios *)

Module Scenario.
Import Calendar.

(** Expiry on 2025-12-31 at 12:00 UTC, three attempts one minute apart. *)
Definition expiry : aware := localize utc (mkDatetime 2025 12 31 12 0 0 0).

Definition cfg (service : string) : config :=
  mkConfig "31/12/2025" (Some "12:00") "auto" service 3 1 false
           ADVANCE_DAYS_DEFAULT expiry.

Definition sched (service : string) : scheduler :=
  mkScheduler (cfg service) (Some "secret") service 3 1 ADVANCE_DAYS_DEFAULT expiry.

Definition phone : scheduler := sched "notify.mobile_app_myphone".

(** A clock read first on 2025-12-01 at 12:00 UTC and one hour later at
    each further reading; a peer that answers 500 to the first request
    and 200 to the others. *)
Definition hourly (k : nat) : Z :=
  utc_instant 2025 12 1 12 0 + Z.of_nat k * 3600 * us_per_second.

Definition flaky (k : nat) : response :=
  match k with
  | O => Response 500 "Internal Server Error" []
  | S _ => Response 200 "[]" []
  end.

Definition start : world := mkWorld hourly flaky 0 0 [].

Definition post (message : string) : event :=
  Post "http://supervisor/core/api/services/notify/mobile_app_myphone" "secret" message.

Definition no_options : options := mkOptions None None None None None None None.

End Scenario.

(** ** Further scenarios *)

Module ScenarioMore.
Import Calendar Scenario.

(** Peers: one that never answers, one that answers from the second
    request on, one whose answers cannot be handled. *)
Definition down (k : nat) : response := RequestException.

Definition listing : list service_entry :=
  [mkService "notify" ["mobile_app_myphone"; "persistent_notification"];
   mkService "light" ["mobile_app_lamp"]].

Definition recovering (k : nat) : response :=
  match k with
  | O => RequestException
  | S _ => Response 200 "[...]" listing
  end.

Definition broken (k : nat) : response := OtherException.

Definition world_of (answer : nat -> response) : world :=
  mkWorld hourly answer 0 0 [].

(** A clock first read one hour after the expiry. *)
Definition late (k : nat) : Z :=
  utc_instant 2025 12 31 13 0 + Z.of_nat k * 3600 * us_per_second.

Definition after_expiry : world := mkWorld late flaky 0 0 [].

(** Schedulers: without a target, with no attempt to make, without a
    token. *)
Definition untargeted : scheduler := sched "".

Definition idle : scheduler :=
  mkScheduler (cfg "notify.mobile_app_myphone") (Some "secret")
    "notify.mobile_app_myphone" 0 1 ADVANCE_DAYS_DEFAULT expiry.

Definition tokenless : scheduler :=
  mkScheduler (cfg "notify") None "notify" 3 1 ADVANCE_DAYS_DEFAULT expiry.

Definition options_with_date (date : string) : options :=
  mkOptions (Some date) None None None None None None.

End ScenarioMore.

(* ===================================================================== *)
(** * Properties of the builtins *)
(* ===================================================================== *)

Section PyFacts.

(** A rendered integer reads back as itself. *)
Lemma read_decimal_str (n : Z) : Py.read_decimal (Py.str n) = Some n.
Proof.
  unfold Py.read_decimal, Py.str.
  rewrite NilZero.isi.
  - simpl. f_equal. apply DecimalZ.of_to.
  - destruct n as [|p|p]; try discriminate.
    simpl. intros [= H]. now apply (DecimalPos.Unsigned.to_uint_nonnil p).
  - destruct n as [|p|p]; try discriminate.
    simpl. intros [= H]. now apply (DecimalPos.Unsigned.to_uint_nonnil p).
Qed.

(** Splitting never yields an empty list of pieces. *)
Lemma split_on_nonempty (sep : ascii -> bool) (s : string) :
  Py.split_on sep s <> [].
Proof.
  destruct s as [|c r]; simpl; [discriminate|].
  destruct (sep c); [discriminate|].
  destruct (Py.split_on sep r); discriminate.
Qed.

(** A string with [n] separators splits into [n + 1] pieces. *)
Lemma split_dot_length (s : string) :
  List.length (Py.split_dot s) = S (Py.count_char "." s).
Proof.
  unfold Py.split_dot.
  induction s as [|c r IH]; [reflexivity|].
  cbn [Py.split_on Py.count_char].
  destruct (Ascii.eqb "." c).
  - cbn [List.length Nat.add]. f_equal. exact IH.
  - destruct (Py.split_on (Ascii.eqb ".") r) eqn:E;
      cbn [List.length Nat.add] in *; [discriminate|exact IH].
Qed.

End PyFacts.

(* ===================================================================== *)
(** * CheckpointTracker: days remaining *)
(* ===================================================================== *)

Section DaysRemaining.
Import Calendar.

Lemma us_per_day_pos : 0 < us_per_day.
Proof. reflexivity. Qed.

(** [ceil_div a b] is the least integer whose multiple of [b] reaches [a]. *)
Lemma ceil_div_bounds (a b : Z) :
  0 < b -> b * (ceil_div a b - 1) < a <= b * ceil_div a b.
Proof.
  intros Hb. unfold ceil_div.
  pose proof (Z.div_mod (- a) b ltac:(lia)) as Hdm.
  pose proof (Z.mod_pos_bound (- a) b Hb) as Hm.
  nia.
Qed.


Lemma days_remaining_bounds (now expiry : Z) :
  us_per_day * (days_remaining now expiry - 1) < expiry - now
    <= us_per_day * days_remaining now expiry.
Proof. apply ceil_div_bounds, us_per_day_pos. Qed.



End DaysRemaining.

(* ===================================================================== *)
(** * Notifier: the message *)
(* ===================================================================== *)

Section ComposeMessage.

(** C3. [_compose_message] is a total function of the number of days:
    the "expired" text for every negative number, the "expires today"
    text for 0, and for every positive [d] the "expires in N days" text
    whose numeral [N] denotes [d]. *)
Theorem compose_message_cases (d : Z) :
  (d < 0 -> _compose_message d = "Tuya IOT expired")
  /\ (d = 0 -> _compose_message d = "Tuya IOT expires today")
  /\ (0 < d ->
      _compose_message d = ("Tuya IOT expires in " ++ Py.str d ++ " days")%string
      /\ Py.read_decimal (Py.str d) = Some d).
Proof.
  unfold _compose_message.
  repeat split.
  - intros H. apply Z.ltb_lt in H. now rewrite H.
  - intros ->. reflexivity.
  - destruct (Z.ltb_spec d 0); [lia|].
    destruct (Z.eqb_spec d 0); [lia|]. reflexivity.
  - apply read_decimal_str.
Qed.

Lemma compose_message_cases_witness :
  _compose_message (-5) = "Tuya IOT expired"
  /\ _compose_message 0 = "Tuya IOT expires today"
  /\ _compose_message 7 = "Tuya IOT expires in 7 days".
Proof.
  split; [|split].
  - apply (proj1 (compose_message_cases (-5))). lia.
  - apply (proj1 (proj2 (compose_message_cases 0))). reflexivity.
  - apply (proj1 (proj2 (proj2 (compose_message_cases 7)) ltac:(lia))).
Defined.

End ComposeMessage.

(* ===================================================================== *)
(** * DateTimeResolver: properties *)
(* ===================================================================== *)

Section ResolverFacts.
Import Calendar Resolver.

Variable isoparse_lib : string -> option datetime.
Variable dtparse_lib : string -> bool -> option datetime.
Variable strptime_lib : string -> string -> option datetime.
Variable pytz_timezone : string -> option tzinfo.

Local Abbreviation isoparse := (Resolver.isoparse isoparse_lib).
Local Abbreviation dtparse := (Resolver.dtparse dtparse_lib).
Local Abbreviation strptime := (Resolver.strptime strptime_lib).
Local Abbreviation parse_auto := (Resolver.parse_auto dtparse_lib).
Local Abbreviation parse_by_format := (Resolver.parse_by_format dtparse_lib strptime_lib).
Local Abbreviation parse_date :=
  (Resolver.parse_date isoparse_lib dtparse_lib strptime_lib).
Local Abbreviation parse_time := (Resolver.parse_time strptime_lib).
Local Abbreviation parse_expiry_date :=
  (Resolver.parse_expiry_date isoparse_lib dtparse_lib strptime_lib pytz_timezone).











End ResolverFacts.

(* ===================================================================== *)
(** * Reasoning about runs *)
(* ===================================================================== *)

Section Runs.

Lemma flat_map_map {A B C : Type} (f : B -> list C) (g : A -> B) (l : list A) :
  flat_map f (map g l) = flat_map (fun x => f (g x)) l.
Proof. induction l as [|x l IH]; [reflexivity|]. cbn. now rewrite IH. Qed.

Lemma effects_app (a b : list event) : effects (a ++ b) = (effects a ++ effects b)%list.
Proof. apply filter_app. Qed.

Lemma posts_app (a b : list event) : posts (a ++ b) = (posts a ++ posts b)%list.
Proof. apply filter_app. Qed.

Lemma count_http_app (a b : list event) :
  count_http (a ++ b) = (count_http a + count_http b)%nat.
Proof. unfold count_http. now rewrite filter_app, length_app. Qed.

Lemma steps_refl (w : world) : steps w 0 [] w.
Proof. unfold steps. now rewrite app_nil_r. Qed.

Lemma steps_trans (w w1 w2 : world) (k1 k2 : nat) (e1 e2 : list event) :
  steps w k1 e1 w1 -> steps w1 k2 e2 w2 -> steps w (k1 + k2) (e1 ++ e2) w2.
Proof.
  intros (Hc1 & Hp1 & Hr1 & Hq1 & Ht1) (Hc2 & Hp2 & Hr2 & Hq2 & Ht2).
  unfold steps. rewrite count_http_app.
  repeat split; try congruence; try lia.
  now rewrite Ht2, Ht1, app_assoc.
Qed.

Lemma bind_ok {A B : Type} (m : M A) (f : A -> M B) (w w' : world) (a : A) :
  m w = (Ok a, w') -> bind m f w = f a w'.
Proof. unfold bind. now intros ->. Qed.

Lemma bind_raise {A B : Type} (m : M A) (f : A -> M B) (w w' : world) (e : exn) :
  m w = (Raise e, w') -> bind m f w = (Raise e, w').
Proof. unfold bind. now intros ->. Qed.

Lemma returns_ret {A : Type} (a : A) (w : world) : returns (ret a) w a 0 [] w.
Proof. split; [reflexivity | apply steps_refl]. Qed.

Lemma returns_bind {A B : Type} (m : M A) (f : A -> M B) (w w1 w2 : world)
    (a : A) (b : B) (k k1 k2 : nat) (evs e1 e2 : list event) :
  returns m w a k1 e1 w1 -> returns (f a) w1 b k2 e2 w2 ->
  k = (k1 + k2)%nat -> evs = (e1 ++ e2)%list ->
  returns (bind m f) w b k evs w2.
Proof.
  intros [Hm Hs1] [Hf Hs2] -> ->. split.
  - now rewrite (bind_ok _ _ _ _ _ Hm).
  - exact (steps_trans _ _ _ _ _ _ _ Hs1 Hs2).
Qed.

Lemma returns_emit (e : event) (w : world) :
  is_http e = false ->
  exists w', returns (emit e) w tt 0 [e] w'.
Proof.
  intros He. eexists. split; [reflexivity|].
  unfold steps, count_http. cbn. rewrite He. cbn. repeat split.
Qed.

Lemma returns_log (lvl : level) (t : string) (w : world) :
  exists w', returns (log lvl t) w tt 0 [Log lvl t] w'.
Proof. now apply returns_emit. Qed.

Lemma returns_sleep (seconds : Z) (w : world) :
  exists w', returns (sleep seconds) w tt 0 [Sleep seconds] w'.
Proof. now apply returns_emit. Qed.

Lemma returns_now (w : world) :
  exists w', returns now w (clock w (reads w)) 1 [] w'.
Proof.
  eexists. split; [reflexivity|].
  unfold steps. cbn. rewrite app_nil_r. repeat split.
Qed.

Lemma returns_http (e : event) (w : world) :
  is_http e = true ->
  exists w', returns (http e) w (peer w (requests w)) 0 [e] w'.
Proof.
  intros He. eexists. split; [reflexivity|].
  unfold steps, count_http. cbn. rewrite He. cbn. repeat split.
Qed.

Lemma logs_only_ret : logs_only (ret tt).
Proof. intros w. exists w, []. split; [apply returns_ret | reflexivity]. Qed.

Lemma logs_only_log (lvl : level) (t : string) : logs_only (log lvl t).
Proof.
  intros w. destruct (returns_log lvl t w) as [w' H].
  exists w', [Log lvl t]. split; [exact H | reflexivity].
Qed.

Lemma logs_only_bind (m : M unit) (k : M unit) :
  logs_only m -> logs_only k -> logs_only (bind m (fun _ => k)).
Proof.
  intros Hm Hk w.
  destruct (Hm w) as (w1 & e1 & R1 & L1).
  destruct (Hk w1) as (w2 & e2 & R2 & L2).
  exists w2, (e1 ++ e2)%list. split.
  - exact (returns_bind _ _ _ _ _ _ _ _ _ _ _ _ _ R1 R2 eq_refl eq_refl).
  - now rewrite forallb_app, L1, L2.
Qed.

Lemma logs_only_when (b : bool) (m : M unit) : logs_only m -> logs_only (when b m).
Proof. destruct b; [trivial | intros _; apply logs_only_ret]. Qed.

Lemma logs_no_effects (evs : list event) :
  forallb is_log evs = true -> effects evs = [] /\ posts evs = [].
Proof.
  induction evs as [|e evs IH]; [now split|].
  cbn. destruct e; cbn; try discriminate.
  exact IH.
Qed.

End Runs.

Create HintDb runs.
(** [chain R]: the first computation of a sequence ran as [R] says. *)
Ltac chain R := eapply returns_bind; [exact R | | reflexivity | reflexivity].

#[local] Hint Resolve logs_only_ret logs_only_log logs_only_bind logs_only_when : runs.

(* ===================================================================== *)
(** * Notifier: delivery *)
(* ===================================================================== *)

Section Delivery.

Variable self : scheduler.

Lemma report_attempt_logs (r : response) : logs_only (report_attempt self r).
Proof.
  unfold report_attempt. destruct r as [status_code text json| |]; auto with runs.
  apply logs_only_bind; [auto with runs|].
  destruct (status_code =? 401); [auto with runs|].
  destruct (400 <=? status_code); auto with runs.
Qed.

(** The attempts loop issues one request per index whatever the peer
    answers, pausing after every index but the last. *)
Lemma push_attempts_returns (url message : string) (todo : nat) :
  forall (i : Z) (w : world),
    (todo <> O -> i + Z.of_nat todo = push_count self) ->
    exists (w' : world) (evs : list event),
      returns (push_attempts self url message todo i) w tt 0 evs w'
      /\ effects evs
         = attempt_pattern (Post url (bearer self) message)
                           (Sleep (push_interval_min self * 60)) todo.
Proof.
  induction todo as [|todo' IH]; intros i w Hi.
  - exists w, []. split; [apply returns_ret | reflexivity].
  - specialize (Hi ltac:(discriminate)).
    cbn [push_attempts].
    destruct (returns_http (Post url (bearer self) message) w eq_refl) as [w1 R1].
    destruct (report_attempt_logs (peer w (requests w)) w1) as (w2 & logs & R2 & L2).
    destruct (logs_no_effects _ L2) as [E2 _].
    destruct todo' as [|todo''].
    + (* last index: no pause *)
      replace (i <? push_count self - 1) with false
        by (symmetry; apply Z.ltb_ge; lia).
      exists w2, ([Post url (bearer self) message] ++ logs ++ [] ++ [])%list.
      split.
      * chain R1. chain R2. chain (returns_ret tt w2). apply returns_ret.
      * rewrite !effects_app, E2. reflexivity.
    + replace (i <? push_count self - 1) with true
        by (symmetry; apply Z.ltb_lt; lia).
      destruct (returns_sleep (push_interval_min self * 60) w2) as [w3 R3].
      destruct (IH (i + 1) w3 ltac:(lia)) as (w4 & rest & R4 & E4).
      exists w4, ([Post url (bearer self) message] ++ logs
                  ++ [Sleep (push_interval_min self * 60)] ++ rest)%list.
      split.
      * chain R1. chain R2. chain R3. exact R4.
      * rewrite !effects_app, E2, E4. reflexivity.
Qed.

Lemma announce_logs :
  logs_only (when (cfg_debug (sch_config self))
               (log DEBUG "Sending notification: %s" ;;
                log DEBUG "POST URL: %s" ;;
                log DEBUG "Auth header: Bearer %s...<truncated>")).
Proof. auto 6 with runs. Qed.

(** A service identifier that unpacks is not the empty string. *)
Lemma split_service_truthy (s domain service : string) :
  split_service s = Ok (domain, service) -> Py.truthy s = true.
Proof. destruct s; [discriminate | reflexivity]. Qed.

(** The effects of one delivery to a well-formed target. *)
Lemma send_push_returns (message domain service : string) (w : world) :
  Py.truthy_opt (hass_token self) = true ->
  split_service (notify_service self) = Ok (domain, service) ->
  exists (w' : world) (evs : list event),
    returns (_send_push self message) w tt 0 evs w'
    /\ effects evs
       = attempt_pattern (Post (service_url domain service) (bearer self) message)
                         (Sleep (push_interval_min self * 60))
                         (Z.to_nat (push_count self)).
Proof.
  intros Htok Hsplit.
  unfold _send_push.
  rewrite Htok, (split_service_truthy _ _ _ Hsplit), Hsplit. cbn [negb orb].
  destruct (announce_logs w) as (w1 & logs & R1 & L1).
  destruct (logs_no_effects _ L1) as [E1 _].
  destruct (push_attempts_returns (service_url domain service) message
              (Z.to_nat (push_count self)) 0 w1) as (w2 & evs & R2 & E2).
  { intros Hn. lia. }
  exists w2, (logs ++ evs)%list. split.
  - chain R1. exact R2.
  - now rewrite effects_app, E1, E2.
Qed.

Lemma posts_effects (evs : list event) : posts (effects evs) = posts evs.
Proof.
  unfold posts, effects.
  induction evs as [|e evs IH]; [reflexivity|].
  destruct e; cbn; now rewrite ?IH.
Qed.

Lemma count_http_effects (evs : list event) : count_http (effects evs) = count_http evs.
Proof.
  unfold count_http, effects.
  induction evs as [|e evs IH]; [reflexivity|].
  destruct e; cbn; now rewrite ?IH.
Qed.

Lemma posts_attempt_pattern (url tok message : string) (seconds : Z) (n : nat) :
  posts (attempt_pattern (Post url tok message) (Sleep seconds) n)
  = repeat (Post url tok message) n.
Proof.
  induction n as [|n IH]; [reflexivity|].
  destruct n as [|n]; [reflexivity|].
  cbn [attempt_pattern] in *. cbn [posts filter is_post repeat] in *.
  now rewrite IH.
Qed.



(** C10. For a scheduler with the token present and a non-empty
    [notify_service]: when the identifier has exactly one dot it unpacks
    into [(domain, service)] and the delivery goes on to its requests;
    when it has no dot or more than one, the unpacking raises
    [ValueError] before the attempts loop, so no handler catches it:
    [_send_push] raises without any effect and so does
    [schedule_notifications], on its startup notification. *)
Theorem service_identifier_needs_one_dot (message : string) (n : nat) (w : world) :
  Py.truthy_opt (hass_token self) = true ->
  Py.truthy (notify_service self) = true ->
  (Py.count_char "." (notify_service self) = 1%nat ->
   exists (domain service : string) (w' : world) (evs : list event),
     split_service (notify_service self) = Ok (domain, service)
     /\ _send_push self message w = (Ok tt, w')
     /\ trace w' = (trace w ++ evs)%list
     /\ posts evs = repeat (Post (service_url domain service) (bearer self) message)
                           (Z.to_nat (push_count self)))
  /\ (Py.count_char "." (notify_service self) <> 1%nat ->
      exists (e : exn) (w' : world),
        split_service (notify_service self) = Raise e
        /\ _send_push self message w = (Raise e, w)
        /\ schedule_notifications self n w = (Raise e, w')
        /\ trace w' = trace w
        /\ requests w' = requests w).
Proof.
  intros Htok Hsvc.
  pose proof (split_dot_length (notify_service self)) as Hlen.
  pose proof (split_on_nonempty (Ascii.eqb ".") (notify_service self)) as Hne.
  fold (Py.split_dot (notify_service self)) in Hne.
  split; intros Hdots.
  - rewrite Hdots in Hlen.
    assert (Hsplit : exists domain service,
               split_service (notify_service self) = Ok (domain, service)).
    { unfold split_service.
      destruct (Py.split_dot (notify_service self)) as [|a [|b [|c l]]];
        try discriminate.
      now exists a, b. }
    destruct Hsplit as (domain & service & Hsplit).
    destruct (send_push_returns message domain service w Htok Hsplit)
      as (w' & evs & [Hrun Hsteps] & Heff).
    exists domain, service, w', evs.
    repeat split; try assumption.
    + apply Hsteps.
    + rewrite <- posts_effects, Heff. apply posts_attempt_pattern.
  - assert (Hsplit : exists e, split_service (notify_service self) = Raise e).
    { unfold split_service.
      destruct (Py.split_dot (notify_service self)) as [|a [|b [|c l]]];
        try (eexists; reflexivity).
      cbn in Hlen. congruence. }
    destruct Hsplit as (e & Hsplit).
    assert (Hpush : forall (m : string) (v : world), _send_push self m v = (Raise e, v)).
    { intros m v. unfold _send_push. now rewrite Htok, Hsvc, Hsplit. }
    exists e. eexists.
    split; [exact Hsplit|]. split; [apply Hpush|].
    unfold schedule_notifications. rewrite Htok. cbn [negb].
    unfold send_current_status_notification.
    split; [|split].
    + apply bind_raise. rewrite (bind_ok _ _ _ _ _ (eq_refl : now w = _)).
      apply Hpush.
    + reflexivity.
    + reflexivity.
Qed.

End Delivery.

(* ===================================================================== *)
(** * SchedulerLoop: polling *)
(* ===================================================================== *)

Section Polling.

Variable self : scheduler.
Variables domain service : string.

Hypothesis token_present : Py.truthy_opt (hass_token self) = true.
Hypothesis target_unpacks : split_service (notify_service self) = Ok (domain, service).

Lemma send_notification_returns (days : Z) (w : world) :
  exists (w' : world) (evs : list event),
    returns (send_notification self days) w tt 0 evs w'
    /\ effects evs = notification_effects self domain service days.
Proof.
  exact (send_push_returns self (_compose_message days) domain service w
           token_present target_unpacks).
Qed.

Lemma check_advance_days_returns (remaining : Z) (days : list Z) :
  forall w : world,
    exists (w' : world) (evs : list event),
      returns (check_advance_days self remaining days) w tt 0 evs w'
      /\ effects evs = flat_map (notification_effects self domain service) (checkpoints_hit remaining days).
Proof.
  induction days as [|d rest IH]; intros w.
  - exists w, []. split; [apply returns_ret | reflexivity].
  - cbn [check_advance_days checkpoints_hit filter].
    destruct (remaining =? d) eqn:Hd.
    + destruct (send_notification_returns d w) as (w1 & e1 & R1 & E1).
      destruct (IH w1) as (w2 & e2 & R2 & E2).
      exists w2, (e1 ++ e2)%list. split.
      * chain R1. exact R2.
      * rewrite effects_app, E1, E2. reflexivity.
    + destruct (IH w) as (w2 & e2 & R2 & E2).
      exists w2, ([] ++ e2)%list. split.
      * chain (returns_ret tt w). exact R2.
      * exact E2.
Qed.

Lemma poll_once_returns (w : world) :
  exists (w' : world) (evs : list event),
    returns (poll_once self) w tt 1 evs w'
    /\ effects evs = poll_effects self domain service (clock w (reads w)).
Proof.
  unfold poll_once.
  destruct (returns_now w) as (w1 & R1).
  destruct (check_advance_days_returns
              (remaining_days_total self (clock w (reads w))) (advance_days self) w1)
    as (w2 & e2 & R2 & E2).
  destruct (returns_sleep 3600 w2) as (w3 & R3).
  exists w3, ([] ++ e2 ++ [Sleep 3600])%list. split.
  - chain R1. chain R2. exact R3.
  - cbn [app]. rewrite effects_app, E2. reflexivity.
Qed.

(** The first [n] polls: the [k]-th one acts on the [k]-th clock reading
    from where the loop started. *)
Lemma polling_returns (n : nat) :
  forall w : world,
    exists (w' : world) (evs : list event),
      returns (polling self n) w tt n evs w'
      /\ effects evs
         = flat_map (fun k => poll_effects self domain service (clock w (k + reads w)%nat)) (seq 0 n).
Proof.
  induction n as [|n IH]; intros w.
  - exists w, []. split; [apply returns_ret | reflexivity].
  - cbn [polling].
    destruct (poll_once_returns w) as (w1 & e1 & R1 & E1).
    destruct (IH w1) as (w2 & e2 & R2 & E2).
    exists w2, (e1 ++ e2)%list. split.
    + chain R1. exact R2.
    + rewrite effects_app, E1, E2.
      cbn [seq flat_map]. f_equal.
      rewrite <- seq_shift, flat_map_map.
      destruct R1 as [_ (Hc & _ & Hr & _)].
      apply flat_map_ext. intros k. rewrite Hc, Hr.
      now replace (k + (1 + reads w))%nat with (S k + reads w)%nat by lia.
Qed.

(** C2. Over the first [n] polls of a scheduler with the token present and
    a target of the form [domain.service], the effects (log aside) are,
    poll after poll: for every offset of [advance_days] that equals the
    days remaining at that poll's clock reading, and for no other, the
    requests of one notification for that offset; then the hourly sleep.
    A poll's effects depend on its own clock reading only, so two polls
    with the same days remaining send the same notifications again. *)
Theorem poll_notifies_exact_matches (n : nat) (w : world) :
  exists (w' : world) (evs : list event),
    polling self n w = (Ok tt, w')
    /\ trace w' = (trace w ++ evs)%list
    /\ effects evs
       = flat_map (fun k => poll_effects self domain service (clock w (k + reads w)%nat)) (seq 0 n)
    /\ (forall t d : Z,
           In d (checkpoints_hit (remaining_days_total self t) (advance_days self))
           <-> In d (advance_days self) /\ remaining_days_total self t = d)
    /\ (forall t1 t2 : Z,
           remaining_days_total self t1 = remaining_days_total self t2 ->
           poll_effects self domain service t1 = poll_effects self domain service t2).
Proof.
  destruct (polling_returns n w) as (w' & evs & [Hrun Hsteps] & Heff).
  exists w', evs.
  split; [exact Hrun|]. split; [apply Hsteps|]. split; [exact Heff|]. split.
  - intros t d. unfold checkpoints_hit. rewrite filter_In, Z.eqb_eq. tauto.
  - intros t1 t2 Heq. unfold poll_effects. now rewrite Heq.
Qed.

(** C9. A scheduler with the token present and a target of the form
    [domain.service], observed over the first [n] polls, is still in its
    loop, and its effects come in two parts. The first part is one
    notification, for the days remaining at the first clock reading,
    whatever [advance_days] holds. The second part is the effects of the
    polls, which act on the later clock readings; every notification for
    an offset of [advance_days] lies in it, after the startup one. *)
Theorem startup_notification_comes_first (n : nat) (w : world) :
  exists (w' : world) (startup polls : list event),
    schedule_notifications self n w = (Ok Polling, w')
    /\ trace w' = (trace w ++ startup ++ polls)%list
    /\ effects startup
       = notification_effects self domain service (remaining_days_total self (clock w (reads w)))
    /\ effects polls
       = flat_map (fun k => poll_effects self domain service (clock w (S k + reads w)%nat)) (seq 0 n).
Proof.
  unfold schedule_notifications. rewrite token_present. cbn [negb].
  unfold send_current_status_notification.
  destruct (returns_now w) as (w0 & R0).
  destruct (send_push_returns self
              (_compose_message (remaining_days_total self (clock w (reads w))))
              domain service w0 token_present target_unpacks)
    as (w1 & e1 & R1 & E1).
  destruct (polling_returns n w1) as (w2 & e2 & R2 & E2).
  exists w2, e1, e2.
  assert (R : returns
                (send_current_status_notification self ;; polling self n ;; ret Polling)
                w Polling ((1 + 0) + (n + 0)) (([] ++ e1) ++ (e2 ++ [])) w2).
  { unfold send_current_status_notification.
    eapply returns_bind; [| |reflexivity|reflexivity].
    - chain R0. exact R1.
    - chain R2. apply returns_ret. }
  destruct R as [Hrun Hsteps].
  split; [exact Hrun|]. split; [|split].
  - destruct Hsteps as (_ & _ & _ & _ & Ht). now rewrite app_nil_r in Ht.
  - exact E1.
  - rewrite E2.
    destruct R0 as [_ (Hc0 & _ & Hr0 & _)].
    destruct R1 as [_ (Hc1 & _ & Hr1 & _)].
    apply flat_map_ext. intros k. rewrite Hc1, Hc0, Hr1, Hr0.
    now replace (k + (0 + (1 + reads w)))%nat with (S k + reads w)%nat by lia.
Qed.

End Polling.

(* ===================================================================== *)
(** * Startup without the Supervisor token *)
(* ===================================================================== *)

Section NoToken.

Variable token : option string.
Hypothesis token_absent : Py.truthy_opt token = false.

Lemma logs_count_http (evs : list event) :
  forallb is_log evs = true -> count_http evs = O.
Proof.
  unfold count_http.
  induction evs as [|e evs IH]; [reflexivity|].
  cbn. destruct e; cbn; try discriminate. exact IH.
Qed.

Lemma list_mobile_apps_without_token (w : world) :
  exists w' : world,
    returns (list_mobile_apps token) w [] 0
      [Log WARNING "SUPERVISOR_TOKEN missing, cannot list mobile apps"] w'.
Proof.
  destruct (returns_log WARNING
              "SUPERVISOR_TOKEN missing, cannot list mobile apps" w) as [w1 R1].
  exists w1.
  assert (R : returns
                (log WARNING "SUPERVISOR_TOKEN missing, cannot list mobile apps" ;;
                 ret (@nil string))
                w [] 0 [Log WARNING "SUPERVISOR_TOKEN missing, cannot list mobile apps"] w1).
  { chain R1. apply returns_ret. }
  unfold list_mobile_apps.
  destruct token as [t|]; [|exact R].
  cbn in token_absent. now rewrite token_absent.
Qed.

Lemma scheduler_init_returns (cfg : config) (w : world) :
  exists (w' : world) (evs : list event),
    returns (scheduler_init cfg token) w
      (mkScheduler cfg token (cfg_notify_service cfg) (cfg_push_count cfg)
         (cfg_push_interval_min cfg) (cfg_advance_days cfg) (cfg_expiry_dt cfg))
      0 evs w'
    /\ forallb is_log evs = true.
Proof.
  unfold scheduler_init. cbv zeta. cbn [hass_token notify_service].
  destruct (logs_only_when (negb (Py.truthy_opt token))
              (log ERROR "SUPERVISOR_TOKEN is missing! Cannot send notifications.")
              (logs_only_log _ _) w) as (w1 & e1 & R1 & L1).
  destruct (logs_only_when (negb (Py.truthy (cfg_notify_service cfg)))
              (log WARNING "No notify_service configured!")
              (logs_only_log _ _) w1) as (w2 & e2 & R2 & L2).
  destruct (returns_log INFO
              "Initialized NotificationScheduler using Supervisor API authentication."
              w2) as (w3 & R3).
  exists w3, (e1 ++ e2 ++ [Log INFO
              "Initialized NotificationScheduler using Supervisor API authentication."]
              ++ [])%list.
  split.
  - chain R1. chain R2. chain R3. apply returns_ret.
  - now rewrite !forallb_app, L1, L2.
Qed.

Lemma schedule_without_token (self : scheduler) (n : nat) (w : world) :
  hass_token self = token ->
  exists w' : world,
    returns (schedule_notifications self n) w Returned 0
      [Log ERROR "Cannot send notifications: missing SUPERVISOR_TOKEN."] w'.
Proof.
  intros Hself. unfold schedule_notifications.
  rewrite Hself, token_absent. cbn [negb].
  destruct (returns_log ERROR
              "Cannot send notifications: missing SUPERVISOR_TOKEN." w) as [w1 R1].
  exists w1. chain R1. apply returns_ret.
Qed.

(** C5. When [SUPERVISOR_TOKEN] is unset or empty, no HTTP request is ever
    made. [list_mobile_apps] returns the empty list after its warning,
    without a request. [schedule_notifications], for every number of
    observed polls, returns after its error line: no clock reading, no
    startup notification, no poll. And over the whole of [main], whatever
    the options and the parsers, every effect is a log line, the request
    counter does not move, and the scheduler is never left polling. *)
Theorem no_token_no_request
    (isoparse_lib : string -> option Calendar.datetime)
    (dtparse_lib : string -> bool -> option Calendar.datetime)
    (strptime_lib : string -> string -> option Calendar.datetime)
    (pytz_timezone : string -> option Calendar.tzinfo)
    (o : options) (self : scheduler) (n : nat) (w : world) :
  (exists w' : world,
      list_mobile_apps token w = (Ok [], w')
      /\ trace w'
         = (trace w ++ [Log WARNING "SUPERVISOR_TOKEN missing, cannot list mobile apps"])%list
      /\ requests w' = requests w)
  /\ (hass_token self = token ->
      exists w' : world,
        schedule_notifications self n w = (Ok Returned, w')
        /\ trace w'
           = (trace w ++ [Log ERROR "Cannot send notifications: missing SUPERVISOR_TOKEN."])%list
        /\ reads w' = reads w
        /\ requests w' = requests w)
  /\ (exists (r : result status) (w' : world) (evs : list event),
        main isoparse_lib dtparse_lib strptime_lib pytz_timezone o token n w = (r, w')
        /\ trace w' = (trace w ++ evs)%list
        /\ forallb is_log evs = true
        /\ requests w' = requests w
        /\ r <> Ok Polling).
Proof.
  split; [|split].
  - destruct (list_mobile_apps_without_token w) as (w' & Hrun & Hsteps).
    exists w'. split; [exact Hrun|]. split; apply Hsteps.
  - intros Hself.
    destruct (schedule_without_token self n w Hself) as (w' & Hrun & Hsteps).
    exists w'. split; [exact Hrun|].
    destruct Hsteps as (_ & _ & Hr & Hq & Ht). auto.
  - unfold main.
    destruct (load_config _ _ _ _ o) as [cfg|e].
    + destruct (returns_log INFO
                  "Loaded config: expiry=%s, advance_days=%s, notify=%s, debug=%s" w)
        as (w1 & R1).
      destruct (list_mobile_apps_without_token w1) as (w2 & R2).
      destruct (scheduler_init_returns cfg w2) as (w3 & e3 & R3 & L3).
      destruct (returns_now w3) as (w4 & R4).
      destruct (returns_log INFO "Tuya IOT Core expires in %d days" w4) as (w5 & R5).
      destruct (schedule_without_token
                  (mkScheduler cfg token (cfg_notify_service cfg) (cfg_push_count cfg)
                     (cfg_push_interval_min cfg) (cfg_advance_days cfg)
                     (cfg_expiry_dt cfg))
                  n w5 eq_refl) as (w6 & R6).
      pose (evs := ([Log INFO "Loaded config: expiry=%s, advance_days=%s, notify=%s, debug=%s"]
                    ++ [Log WARNING "SUPERVISOR_TOKEN missing, cannot list mobile apps"]
                    ++ e3 ++ [] ++ [Log INFO "Tuya IOT Core expires in %d days"]
                    ++ [Log ERROR "Cannot send notifications: missing SUPERVISOR_TOKEN."])%list).
      exists (Ok Returned), w6, evs.
      assert (R : returns
                (log INFO "Loaded config: expiry=%s, advance_days=%s, notify=%s, debug=%s" ;;
                 list_mobile_apps token ;;
                 self0 <- scheduler_init cfg token ;;
                 now ;;
                 log INFO "Tuya IOT Core expires in %d days" ;;
                 schedule_notifications self0 n)
                w Returned (0 + (0 + (0 + (1 + (0 + 0))))) evs w6).
      { subst evs. chain R1. chain R2. chain R3. chain R4. chain R5. exact R6. }
      destruct R as [Hrun (_ & _ & _ & Hq & Ht)].
      split; [exact Hrun|]. split; [exact Ht|].
      assert (L : forallb is_log evs = true).
      { subst evs. cbn [app forallb is_log andb]. rewrite forallb_app, L3. reflexivity. }
      split; [exact L|]. split; [|discriminate].
      now rewrite Hq, (logs_count_http _ L).
    + exists (Raise e), w, []. cbn.
      rewrite app_nil_r. repeat split. discriminate.
Qed.

End NoToken.

(* ===================================================================== *)
(** * The properties on the worked scenarios *)
(* ===================================================================== *)

Section Witnesses.
Import Calendar Scenario.


(** A target with one dot is delivered to; a target without a dot stops
    the scheduler with [ValueError]. *)
Lemma service_identifier_needs_one_dot_witness :
  (exists (domain service : string) (w' : world) (evs : list event),
      split_service "notify.mobile_app_myphone" = Ok (domain, service)
      /\ _send_push phone "hello" start = (Ok tt, w')
      /\ trace w' = (trace start ++ evs)%list
      /\ posts evs = repeat (Post (service_url domain service) "secret" "hello") 3)
  /\ (exists (e : exn) (w' : world),
        split_service "notify" = Raise e
        /\ _send_push (sched "notify") "hello" start = (Raise e, start)
        /\ schedule_notifications (sched "notify") 5 start = (Raise e, w')
        /\ trace w' = trace start
        /\ requests w' = requests start).
Proof.
  split.
  - exact (proj1 (service_identifier_needs_one_dot phone "hello" 5 start eq_refl eq_refl)
             eq_refl).
  - refine (proj2 (service_identifier_needs_one_dot (sched "notify") "hello" 5 start
                     eq_refl eq_refl) _).
    vm_compute. discriminate.
Defined.

(** Two polls an hour apart, both with 30 days remaining: the
    notification for 30 days goes out on each of them. *)
Lemma poll_notifies_exact_matches_witness :
  exists (w' : world) (evs : list event),
    polling phone 2 start = (Ok tt, w')
    /\ trace w' = (trace start ++ evs)%list
    /\ effects evs
       = [post "Tuya IOT expires in 30 days"; Sleep 60;
          post "Tuya IOT expires in 30 days"; Sleep 60;
          post "Tuya IOT expires in 30 days"; Sleep 3600;
          post "Tuya IOT expires in 30 days"; Sleep 60;
          post "Tuya IOT expires in 30 days"; Sleep 60;
          post "Tuya IOT expires in 30 days"; Sleep 3600].
Proof.
  destruct (poll_notifies_exact_matches phone "notify" "mobile_app_myphone"
              eq_refl eq_refl 2 start) as (w' & evs & Hrun & Htrace & Heff & _).
  exists w', evs. split; [exact Hrun|]. split; [exact Htrace|].
  rewrite Heff. reflexivity.
Defined.

(** A scheduler whose only offset is 7, started with 30 days remaining:
    the startup notification goes out all the same, and the poll that
    follows sends nothing. *)
Lemma startup_notification_comes_first_witness :
  let self := mkScheduler (cfg "notify.mobile_app_myphone") (Some "secret")
                "notify.mobile_app_myphone" 1 1 [7] expiry in
  exists (w' : world) (startup polls : list event),
    schedule_notifications self 1 start = (Ok Polling, w')
    /\ trace w' = (trace start ++ startup ++ polls)%list
    /\ effects startup = [post "Tuya IOT expires in 30 days"]
    /\ effects polls = [Sleep 3600].
Proof.
  intros self.
  exact (startup_notification_comes_first self "notify" "mobile_app_myphone"
           eq_refl eq_refl 1 start).
Defined.

(** The whole program without a token in the environment. *)
Lemma no_token_no_request_witness :
  exists (r : result status) (w' : world) (evs : list event),
    main Sample.isoparse Sample.dtparse Sample.strptime Sample.pytz_timezone
      no_options None 3 start = (r, w')
    /\ trace w' = (trace start ++ evs)%list
    /\ forallb is_log evs = true
    /\ requests w' = requests start
    /\ r <> Ok Polling.
Proof.
  exact (proj2 (proj2 (no_token_no_request None eq_refl
                         Sample.isoparse Sample.dtparse Sample.strptime
                         Sample.pytz_timezone no_options phone 3 start))).
Defined.




End Witnesses.

(* ===================================================================== *)
(** * More on days remaining and on the message *)
(* ===================================================================== *)

Section DaysRemainingMore.
Import Calendar.

(** X1. As the clock advances the number of days remaining never goes up,
    and a later expiry never gives fewer days. *)
Theorem days_remaining_monotone (now1 now2 expiry1 expiry2 : Z) :
  now1 <= now2 -> expiry1 <= expiry2 ->
  days_remaining now2 expiry1 <= days_remaining now1 expiry2.
Proof.
  intros Hn He.
  pose proof (days_remaining_bounds now2 expiry1) as H1.
  pose proof (days_remaining_bounds now1 expiry2) as H2.
  pose proof us_per_day_pos as Hd.
  nia.
Qed.

Lemma days_remaining_monotone_witness :
  days_remaining (utc_instant 2025 12 2 12 0) (utc_instant 2025 12 31 12 0)
  <= days_remaining (utc_instant 2025 12 1 12 0) (utc_instant 2026 1 1 12 0).
Proof.
  apply days_remaining_monotone; vm_compute; discriminate.
Defined.




(** X4. The status message by the clock: before the expiry it counts at least
    one day; from the expiry on and for one day it says "expires today";
    it says "expired" only once a full day has passed. *)
Theorem status_message_by_clock (now expiry : Z) :
  (now < expiry ->
   1 <= days_remaining now expiry
   /\ _compose_message (days_remaining now expiry)
      = ("Tuya IOT expires in " ++ Py.str (days_remaining now expiry) ++ " days")%string)
  /\ (expiry <= now < expiry + us_per_day ->
      _compose_message (days_remaining now expiry) = "Tuya IOT expires today")
  /\ (expiry + us_per_day <= now ->
      _compose_message (days_remaining now expiry) = "Tuya IOT expired").
Proof.
  pose proof (days_remaining_bounds now expiry) as Hb.
  pose proof us_per_day_pos as Hd.
  unfold _compose_message.
  split; [|split]; intros H.
  - assert (Hpos : 1 <= days_remaining now expiry) by nia.
    split; [exact Hpos|].
    destruct (Z.ltb_spec (days_remaining now expiry) 0); [lia|].
    destruct (Z.eqb_spec (days_remaining now expiry) 0); [lia|]. reflexivity.
  - assert (Hz : days_remaining now expiry = 0) by nia.
    now rewrite Hz.
  - assert (Hneg : days_remaining now expiry < 0) by nia.
    apply Z.ltb_lt in Hneg. now rewrite Hneg.
Qed.

Lemma status_message_by_clock_witness :
  _compose_message
    (days_remaining (utc_instant 2025 12 31 13 0) (utc_instant 2025 12 31 12 0))
  = "Tuya IOT expires today".
Proof.
  apply (proj1 (proj2 (status_message_by_clock _ _))).
  split; vm_compute; [discriminate | reflexivity].
Defined.

Lemma append_cancel_l (p a b : string) : (p ++ a)%string = (p ++ b)%string -> a = b.
Proof. induction p as [|c p IH]; cbn; [trivial|]. intros [= H]. auto. Qed.

Lemma string_length_append (a b : string) :
  String.length (a ++ b)%string = (String.length a + String.length b)%nat.
Proof. induction a as [|c a IH]; cbn; [reflexivity | now rewrite IH]. Qed.

Lemma append_cancel_r (a b s : string) : (a ++ s)%string = (b ++ s)%string -> a = b.
Proof.
  intros H.
  assert (Hlen : String.length a = String.length b).
  { apply (f_equal String.length) in H. rewrite !string_length_append in H. lia. }
  revert b H Hlen. induction a as [|c a IH]; intros [|d b] H Hlen;
    try discriminate; [reflexivity|].
  cbn in H. injection H as -> H. f_equal. apply IH; [exact H|].
  cbn in Hlen. lia.
Qed.

Lemma str_injective (m n : Z) : Py.str m = Py.str n -> m = n.
Proof.
  intros H. apply (f_equal Py.read_decimal) in H.
  rewrite !read_decimal_str in H. now injection H.
Qed.

(** X5. The message tells non-negative day counts apart: two of them with the
    same message are equal. (All negative counts share one message.) *)
Theorem compose_message_injective (d1 d2 : Z) :
  0 <= d1 -> 0 <= d2 ->
  _compose_message d1 = _compose_message d2 -> d1 = d2.
Proof.
  intros H1 H2. unfold _compose_message.
  destruct (Z.ltb_spec d1 0); [lia|]. destruct (Z.ltb_spec d2 0); [lia|].
  destruct (Z.eqb_spec d1 0) as [->|N1]; destruct (Z.eqb_spec d2 0) as [->|N2];
    try reflexivity; try (cbn; discriminate).
  intros Hmsg.
  apply (append_cancel_l "Tuya IOT expires in ") in Hmsg.
  apply append_cancel_r in Hmsg. now apply str_injective.
Qed.

Lemma compose_message_injective_witness :
  _compose_message (3 + 4) = _compose_message 7 /\ 3 + 4 = 7.
Proof.
  split; [reflexivity|].
  apply compose_message_injective; [lia | lia | reflexivity].
Defined.

End DaysRemainingMore.

(* ===================================================================== *)
(** * White space around a string *)
(* ===================================================================== *)

Section Padding.

Lemma blank_cons (c : ascii) (s : string) :
  blank (String c s) = true <-> Py.is_space c = true /\ blank s = true.
Proof. unfold blank. cbn [list_ascii_of_string forallb]. apply andb_true_iff. Qed.

Lemma lstrip_blank (ws : string) : blank ws = true -> Py.lstrip ws = "".
Proof.
  induction ws as [|c ws IH]; [reflexivity|].
  rewrite blank_cons. intros [Hc Hws]. cbn [Py.lstrip]. rewrite Hc. auto.
Qed.

Lemma rstrip_blank (ws : string) : blank ws = true -> Py.rstrip ws = "".
Proof.
  induction ws as [|c ws IH]; [reflexivity|].
  rewrite blank_cons. intros [Hc Hws]. cbn [Py.rstrip]. now rewrite (IH Hws), Hc.
Qed.

Lemma lstrip_blank_prefix (ws x : string) :
  blank ws = true -> Py.lstrip (ws ++ x) = Py.lstrip x.
Proof.
  induction ws as [|c ws IH]; [reflexivity|].
  rewrite blank_cons. intros [Hc Hws]. cbn [append Py.lstrip]. rewrite Hc. auto.
Qed.

Lemma rstrip_blank_suffix (x ws : string) :
  blank ws = true -> Py.rstrip (x ++ ws) = Py.rstrip x.
Proof.
  intros Hws. induction x as [|c x IH].
  - cbn [append]. now rewrite (rstrip_blank _ Hws).
  - cbn [append Py.rstrip]. now rewrite IH.
Qed.

(** [strip] drops any white space put around a string. *)
Lemma strip_padded (ws1 d ws2 : string) :
  blank ws1 = true -> blank ws2 = true ->
  Py.strip (ws1 ++ d ++ ws2) = Py.strip d.
Proof.
  intros H1 H2. unfold Py.strip. rewrite (lstrip_blank_prefix _ _ H1).
  induction d as [|c d IH].
  - cbn [append]. now rewrite (lstrip_blank _ H2).
  - cbn [append Py.lstrip]. destruct (Py.is_space c); [exact IH|].
    exact (rstrip_blank_suffix (String c d) ws2 H2).
Qed.

End Padding.

(* ===================================================================== *)
(** * More on the resolver *)
(* ===================================================================== *)

Section ResolverMore.
Import Calendar Resolver.

Variable isoparse_lib : string -> option datetime.
Variable dtparse_lib : string -> bool -> option datetime.
Variable strptime_lib : string -> string -> option datetime.
Variable pytz_timezone : string -> option tzinfo.

Local Abbreviation isoparse := (Resolver.isoparse isoparse_lib).
Local Abbreviation dtparse := (Resolver.dtparse dtparse_lib).
Local Abbreviation parse_auto := (Resolver.parse_auto dtparse_lib).
Local Abbreviation parse_date :=
  (Resolver.parse_date isoparse_lib dtparse_lib strptime_lib).
Local Abbreviation parse_time := (Resolver.parse_time strptime_lib).
Local Abbreviation parse_expiry_date :=
  (Resolver.parse_expiry_date isoparse_lib dtparse_lib strptime_lib pytz_timezone).

Lemma parse_auto_leading (s : string) :
  parse_auto s
  = match leading_integers s with
    | Some (p0, p1) => dtparse s (dayfirst p0 p1)
    | None => None
    end.
Proof.
  unfold Resolver.parse_auto, leading_integers, obind.
  destruct (Py.re_split_date s) as [|a [|b rest]]; cbn [nth_error]; try reflexivity.
  - now destruct (Py.int a).
  - destruct (Py.int a); [|reflexivity]. now destruct (Py.int b).
Qed.

Lemma parse_by_format_auto (s date_format : string) :
  selects_auto date_format = true ->
  Resolver.parse_by_format dtparse_lib strptime_lib s date_format = parse_auto s.
Proof.
  unfold selects_auto, Resolver.parse_by_format.
  destruct (String.eqb date_format "iso"); [discriminate|].
  destruct (String.eqb date_format "us"); [discriminate|].
  destruct (String.eqb date_format "eu"); [discriminate|]. reflexivity.
Qed.

Lemma parse_expiry_date_unresolved
    (date_str : string) (time_str : option string) (tz_name date_format : string)
    (tz : tzinfo) :
  pytz_timezone tz_name = Some tz ->
  parse_date (Py.strip date_str) date_format = None ->
  parse_expiry_date date_str time_str tz_name date_format
  = Raise (ValueError ("Cannot parse date: " ++ date_str)).
Proof.
  intros Htz Hdate. unfold Resolver.parse_expiry_date. now rewrite Htz, Hdate.
Qed.

(** X6. Under ["auto"] a date that is not ISO and does not start with two
    integer components is rejected with [ValueError], whatever dateutil
    would have made of it. *)
Theorem auto_requires_two_integers
    (date_str : string) (time_str : option string) (tz_name date_format : string)
    (tz : tzinfo) :
  pytz_timezone tz_name = Some tz ->
  selects_auto date_format = true ->
  isoparse (Py.strip date_str) = None ->
  leading_integers (Py.strip date_str) = None ->
  parse_expiry_date date_str time_str tz_name date_format
  = Raise (ValueError ("Cannot parse date: " ++ date_str)).
Proof.
  intros Htz Hauto Hiso Hlead.
  apply (parse_expiry_date_unresolved _ _ _ _ _ Htz).
  unfold Resolver.parse_date. rewrite Hiso.
  rewrite (parse_by_format_auto _ _ Hauto), parse_auto_leading. now rewrite Hlead.
Qed.

Lemma split_on_no_separator (sep : ascii -> bool) (s : string) :
  forallb (fun c => negb (sep c)) (list_ascii_of_string s) = true ->
  Py.split_on sep s = [s].
Proof.
  induction s as [|c r IH]; [reflexivity|].
  cbn [list_ascii_of_string forallb Py.split_on].
  rewrite andb_true_iff, negb_true_iff. intros [Hc Hr].
  now rewrite Hc, (IH Hr).
Qed.

(** X7. A date without any of [.], [/] and [-] has a single component, so
    under ["auto"] it is rejected unless it is ISO. *)
Theorem auto_without_separator_fails
    (date_str : string) (time_str : option string) (tz_name date_format : string)
    (tz : tzinfo) :
  pytz_timezone tz_name = Some tz ->
  selects_auto date_format = true ->
  isoparse (Py.strip date_str) = None ->
  forallb (fun c => negb (date_separator c)) (list_ascii_of_string (Py.strip date_str))
  = true ->
  parse_expiry_date date_str time_str tz_name date_format
  = Raise (ValueError ("Cannot parse date: " ++ date_str)).
Proof.
  intros Htz Hauto Hiso Hsep.
  apply (parse_expiry_date_unresolved _ _ _ _ _ Htz).
  unfold Resolver.parse_date. rewrite Hiso.
  rewrite (parse_by_format_auto _ _ Hauto).
  pose proof (split_on_no_separator date_separator _ Hsep) as Hone.
  unfold Resolver.parse_auto.
  change (Py.re_split_date (Py.strip date_str))
    with (Py.split_on date_separator (Py.strip date_str)).
  rewrite Hone. cbn [nth_error obind].
  now destruct (Py.int (Py.strip date_str)).
Qed.


(** X9. A [date_format] other than ["iso"], ["us"] and ["eu"], a misspelt one
    included, is handled exactly as ["auto"]. *)
Theorem unknown_format_is_auto
    (date_str : string) (time_str : option string) (tz_name date_format : string) :
  selects_auto date_format = true ->
  parse_expiry_date date_str time_str tz_name date_format
  = parse_expiry_date date_str time_str tz_name "auto".
Proof.
  intros Hauto. unfold Resolver.parse_expiry_date, Resolver.parse_date.
  now rewrite (parse_by_format_auto _ _ Hauto), (parse_by_format_auto _ "auto" eq_refl).
Qed.

(** X10. Whatever [parse_expiry_date] returns is a well-formed datetime on a
    whole minute, in the zone that was asked for; its hour and minute are
    those read from the time string, never those of the date string. *)
Theorem resolved_datetime_well_formed
    (date_str : string) (time_str : option string) (tz_name date_format : string)
    (r : aware) :
  parse_expiry_date date_str time_str tz_name date_format = Ok r ->
  valid (naive r) = true
  /\ second (naive r) = 0 /\ microsecond (naive r) = 0
  /\ pytz_timezone tz_name = Some (zone r)
  /\ (hour (naive r), minute (naive r))
     = parse_time (Py.strip (time_or_default time_str))
  /\ exists dt : datetime,
       parse_date (Py.strip date_str) date_format = Some dt
       /\ same_date (naive r) dt.
Proof.
  unfold Resolver.parse_expiry_date.
  destruct (pytz_timezone tz_name) as [tz|]; [|discriminate].
  destruct (parse_date (Py.strip date_str) date_format) as [dt|] eqn:Hdate;
    [|discriminate].
  cbv zeta. unfold datetime_new.
  destruct (valid (mkDatetime _ _ _ _ _ 0 0)) eqn:Hv; [|discriminate].
  intros [= <-]. cbn [naive zone localize second microsecond hour minute].
  split; [exact Hv|]. repeat split.
  - now destruct (parse_time _).
  - exists dt. repeat split.
Qed.


(** X12. White space before and after the date does not change what the date
    resolves to. *)
Theorem date_padding_ignored
    (ws1 date_str ws2 : string) (time_str : option string)
    (tz_name date_format : string) (r : aware) :
  blank ws1 = true -> blank ws2 = true ->
  parse_expiry_date (ws1 ++ date_str ++ ws2) time_str tz_name date_format = Ok r
  <-> parse_expiry_date date_str time_str tz_name date_format = Ok r.
Proof.
  intros H1 H2. unfold Resolver.parse_expiry_date.
  rewrite (strip_padded _ _ _ H1 H2).
  destruct (pytz_timezone tz_name) as [tz|]; [|reflexivity].
  destruct (parse_date (Py.strip date_str) date_format) as [dt|]; [reflexivity|].
  split; discriminate.
Qed.

End ResolverMore.

(* ===================================================================== *)
(** * More on delivery *)
(* ===================================================================== *)

Section DeliveryMore.

Variable self : scheduler.

(** X13. Without a token, or with an empty [notify_service], a delivery
    returns after one error line: no request, no exception, whatever the
    identifier looks like. *)
Theorem send_push_skips_without_token_or_service (message : string) (w : world) :
  Py.truthy_opt (hass_token self) = false \/ Py.truthy (notify_service self) = false ->
  exists w' : world,
    _send_push self message w = (Ok tt, w')
    /\ trace w'
       = (trace w ++ [Log ERROR "Cannot send notification: missing token or notify_service"])%list
    /\ requests w' = requests w
    /\ reads w' = reads w.
Proof.
  intros H. unfold _send_push.
  replace (negb (Py.truthy_opt (hass_token self)) || negb (Py.truthy (notify_service self)))
    with true by (destruct H as [-> | ->]; [reflexivity | now rewrite orb_true_r]).
  eexists. repeat split.
Qed.

(** X14. With debug logging off and a [push_count] of zero or less, a delivery
    does nothing at all: no request, no pause, no log line. *)
Theorem nonpositive_push_count_sends_nothing
    (message domain service : string) (w : world) :
  Py.truthy_opt (hass_token self) = true ->
  split_service (notify_service self) = Ok (domain, service) ->
  cfg_debug (sch_config self) = false ->
  push_count self <= 0 ->
  _send_push self message w = (Ok tt, w).
Proof.
  intros Htok Hsplit Hdebug Hcount. unfold _send_push.
  rewrite Htok, (split_service_truthy _ _ _ Hsplit), Hsplit, Hdebug.
  replace (Z.to_nat (push_count self)) with O by lia. reflexivity.
Qed.

Lemma report_attempt_outcome (r : response) (w : world) :
  exists (w' : world) (logs : list event),
    returns (report_attempt self r) w tt 0 logs w'
    /\ forallb is_log logs = true
    /\ List.length (filter is_info logs) = (if answered_ok r then 1 else 0)%nat
    /\ List.length (filter is_error logs) = (if answered_ok r then 0 else 1)%nat.
Proof.
  assert (Hexc : exists (w' : world) (logs : list event),
             returns (log ERROR "Exception while sending notification: %s") w tt 0 logs w'
             /\ forallb is_log logs = true
             /\ List.length (filter is_info logs) = 0%nat
             /\ List.length (filter is_error logs) = 1%nat).
  { destruct (returns_log ERROR "Exception while sending notification: %s" w) as [w' R].
    exists w', [Log ERROR "Exception while sending notification: %s"].
    split; [exact R | repeat split]. }
  destruct r as [status_code text json| |]; [|exact Hexc|exact Hexc].
  unfold report_attempt, answered_ok.
  pose (dbg := if cfg_debug (sch_config self)
               then [Log DEBUG "HTTP status: %s, response: %s"] else []).
  assert (R1 : exists w1 : world,
             returns (when (cfg_debug (sch_config self))
                        (log DEBUG "HTTP status: %s, response: %s")) w tt 0 dbg w1).
  { subst dbg. destruct (cfg_debug (sch_config self)).
    - apply returns_log.
    - exists w. apply returns_ret. }
  destruct R1 as [w1 R1].
  assert (L1 : forallb is_log dbg = true)
    by (subst dbg; now destruct (cfg_debug (sch_config self))).
  assert (Di : filter is_info dbg = [])
    by (subst dbg; now destruct (cfg_debug (sch_config self))).
  assert (De : filter is_error dbg = [])
    by (subst dbg; now destruct (cfg_debug (sch_config self))).
  clearbody dbg.
  destruct (Z.eqb_spec status_code 401) as [->|N401].
  - destruct (returns_log ERROR "Supervisor token rejected (401 Unauthorized)." w1)
      as [w2 R2].
    exists w2, (dbg ++ [Log ERROR "Supervisor token rejected (401 Unauthorized)."])%list.
    split; [chain R1; exact R2|].
    rewrite forallb_app, !filter_app, !length_app, L1, Di, De. now repeat split.
  - destruct (Z.leb_spec 400 status_code).
    + destruct (returns_log ERROR "Failed to send notification: %s %s" w1) as [w2 R2].
      exists w2, (dbg ++ [Log ERROR "Failed to send notification: %s %s"])%list.
      split; [chain R1; exact R2|].
      rewrite forallb_app, !filter_app, !length_app, L1, Di, De.
      replace (status_code <? 400) with false by (symmetry; apply Z.ltb_ge; lia).
      now repeat split.
    + destruct (returns_log INFO "Notification sent successfully (%d/%d)" w1) as [w2 R2].
      exists w2, (dbg ++ [Log INFO "Notification sent successfully (%d/%d)"])%list.
      split; [chain R1; exact R2|].
      rewrite forallb_app, !filter_app, !length_app, L1, Di, De.
      replace (status_code <? 400) with true by (symmetry; apply Z.ltb_lt; lia).
      now repeat split.
Qed.

Lemma pause_returns (b : bool) (seconds : Z) (w : world) :
  exists (w' : world) (evs : list event),
    returns (when b (sleep seconds)) w tt 0 evs w'
    /\ filter is_info evs = [] /\ filter is_error evs = [] /\ count_http evs = O.
Proof.
  destruct b.
  - destruct (returns_sleep seconds w) as [w' R].
    exists w', [Sleep seconds]. now split.
  - exists w, []. split; [apply returns_ret | now repeat split].
Qed.

Lemma answers_succ (w w' : world) (n : nat) :
  peer w' = peer w -> requests w' = S (requests w) ->
  answers w (S n) = peer w (requests w) :: answers w' n.
Proof.
  intros Hp Hr. unfold answers. cbn [seq map]. f_equal.
  rewrite <- seq_shift, map_map. apply map_ext. intros i.
  now rewrite Hp, Hr, Nat.add_succ_r.
Qed.

Lemma push_attempts_outcomes (url message : string) (todo : nat) :
  forall (i : Z) (w : world),
    exists (w' : world) (evs : list event),
      returns (push_attempts self url message todo i) w tt 0 evs w'
      /\ List.length (filter is_info evs)
         = List.length (filter answered_ok (answers w todo))
      /\ List.length (filter is_error evs)
         = List.length (filter (fun r => negb (answered_ok r)) (answers w todo)).
Proof.
  induction todo as [|todo' IH]; intros i w.
  - exists w, []. split; [apply returns_ret | now split].
  - cbn [push_attempts].
    destruct (returns_http (Post url (bearer self) message) w eq_refl) as [w1 R1].
    destruct (report_attempt_outcome (peer w (requests w)) w1)
      as (w2 & logs & R2 & L2 & I2 & E2).
    destruct (pause_returns (i <? push_count self - 1) (push_interval_min self * 60) w2)
      as (w3 & pause & R3 & I3 & E3 & Q3).
    destruct (IH (i + 1) w3) as (w4 & rest & R4 & I4 & E4).
    assert (Hw3 : peer w3 = peer w /\ requests w3 = S (requests w)).
    { destruct R1 as [_ (_ & P1 & _ & Q1 & _)].
      destruct R2 as [_ (_ & P2 & _ & Q2 & _)].
      destruct R3 as [_ (_ & P3 & _ & Q3' & _)].
      rewrite (logs_count_http _ L2) in Q2. rewrite Q3 in Q3'.
      split; [congruence|]. rewrite Q3', Q2, Q1. reflexivity. }
    destruct Hw3 as [Hp Hq].
    rewrite (answers_succ w w3 todo' Hp Hq).
    exists w4, ([Post url (bearer self) message] ++ logs ++ pause ++ rest)%list.
    split; [chain R1; chain R2; chain R3; exact R4|].
    rewrite !filter_app, !length_app, I2, E2, I3, E3, I4, E4.
    cbn [filter is_info is_error List.length Nat.add].
    destruct (answered_ok (peer w (requests w))); cbn; now split.
Qed.

(** X15. Every attempt of a delivery is reported once: by an INFO line when
    its answer is a response with a status below 400, by an ERROR line
    otherwise (a 401, another status of 400 or more, an exception). *)
Theorem each_attempt_logged_once
    (message domain service : string) (w : world) :
  Py.truthy_opt (hass_token self) = true ->
  split_service (notify_service self) = Ok (domain, service) ->
  exists (w' : world) (evs : list event),
    _send_push self message w = (Ok tt, w')
    /\ trace w' = (trace w ++ evs)%list
    /\ List.length (filter is_info evs)
       = List.length (filter answered_ok (answers w (Z.to_nat (push_count self))))
    /\ List.length (filter is_error evs)
       = List.length (filter (fun r => negb (answered_ok r))
                        (answers w (Z.to_nat (push_count self)))).
Proof.
  intros Htok Hsplit. unfold _send_push.
  rewrite Htok, (split_service_truthy _ _ _ Hsplit), Hsplit. cbn [negb orb].
  pose (dbg := if cfg_debug (sch_config self)
               then [Log DEBUG "Sending notification: %s"; Log DEBUG "POST URL: %s";
                     Log DEBUG "Auth header: Bearer %s...<truncated>"]
               else []).
  assert (R1 : exists w1 : world,
             returns (when (cfg_debug (sch_config self))
                        (log DEBUG "Sending notification: %s" ;;
                         log DEBUG "POST URL: %s" ;;
                         log DEBUG "Auth header: Bearer %s...<truncated>")) w tt 0 dbg w1).
  { subst dbg. destruct (cfg_debug (sch_config self)).
    - destruct (returns_log DEBUG "Sending notification: %s" w) as [wa Ra].
      destruct (returns_log DEBUG "POST URL: %s" wa) as [wb Rb].
      destruct (returns_log DEBUG "Auth header: Bearer %s...<truncated>" wb) as [wc Rc].
      exists wc. cbn [when]. chain Ra. chain Rb. exact Rc.
    - exists w. apply returns_ret. }
  destruct R1 as [w1 R1].
  assert (Hdbg : filter is_info dbg = [] /\ filter is_error dbg = []
                 /\ count_http dbg = O)
    by (subst dbg; now destruct (cfg_debug (sch_config self))).
  destruct Hdbg as (Di & De & Dq). clearbody dbg.
  destruct (push_attempts_outcomes (service_url domain service) message
              (Z.to_nat (push_count self)) 0 w1) as (w2 & evs & R2 & I2 & E2).
  assert (Hans : answers w1 (Z.to_nat (push_count self))
                 = answers w (Z.to_nat (push_count self))).
  { destruct R1 as [_ (_ & P1 & _ & Q1 & _)]. rewrite Dq in Q1.
    unfold answers. apply map_ext. intros k. now rewrite P1, Q1. }
  rewrite Hans in I2, E2.
  exists w2, (dbg ++ evs)%list.
  assert (R : returns
                (when (cfg_debug (sch_config self))
                   (log DEBUG "Sending notification: %s" ;;
                    log DEBUG "POST URL: %s" ;;
                    log DEBUG "Auth header: Bearer %s...<truncated>") ;;
                 push_attempts self (service_url domain service) message
                   (Z.to_nat (push_count self)) 0)
                w tt 0 (dbg ++ evs) w2).
  { chain R1. exact R2. }
  destruct R as [Hrun (_ & _ & _ & _ & Ht)].
  split; [exact Hrun|]. split; [exact Ht|].
  rewrite !filter_app, !length_app, Di, De. now split.
Qed.

End DeliveryMore.

Section ServiceIdentifier.

Lemma split_dot_join (s : string) : join_dot (Py.split_dot s) = s.
Proof.
  unfold Py.split_dot.
  induction s as [|c r IH]; [reflexivity|].
  cbn [Py.split_on].
  destruct (Ascii.eqb_spec "." c) as [<-|Hc].
  - pose proof (split_on_nonempty (Ascii.eqb ".") r) as Hne.
    destruct (Py.split_on (Ascii.eqb ".") r) as [|p ps] eqn:E; [contradiction|].
    cbn [join_dot]. cbn [join_dot] in IH. now rewrite IH.
  - destruct (Py.split_on (Ascii.eqb ".") r) as [|p ps] eqn:E.
    + now destruct (split_on_nonempty (Ascii.eqb ".") r).
    + destruct ps as [|q qs]; cbn [join_dot append] in *; now rewrite IH.
Qed.

Lemma split_dot_pieces (s : string) :
  Forall (fun p => Py.count_char "." p = O) (Py.split_dot s).
Proof.
  unfold Py.split_dot.
  induction s as [|c r IH]; [repeat constructor|].
  cbn [Py.split_on].
  destruct (Ascii.eqb_spec "." c) as [<-|Hc].
  - constructor; [reflexivity | exact IH].
  - destruct (Py.split_on (Ascii.eqb ".") r) as [|p ps] eqn:E.
    + repeat constructor. cbn [Py.count_char].
      now destruct (Ascii.eqb_spec "." c).
    + inversion IH as [|? ? Hp Hps]; subst. constructor; [|exact Hps].
      cbn [Py.count_char]. now destruct (Ascii.eqb_spec "." c).
Qed.

Lemma split_dot_undotted (s : string) :
  Py.count_char "." s = O -> Py.split_dot s = [s].
Proof.
  unfold Py.split_dot.
  induction s as [|c r IH]; [reflexivity|].
  cbn [Py.count_char Py.split_on].
  destruct (Ascii.eqb "." c); [discriminate|].
  cbn [Nat.add]. intros H. now rewrite (IH H).
Qed.

Lemma split_dot_at_first_dot (a b : string) :
  Py.count_char "." a = O ->
  Py.split_dot (a ++ String "." b) = a :: Py.split_dot b.
Proof.
  unfold Py.split_dot.
  induction a as [|c a IH]; [reflexivity|].
  cbn [Py.count_char append Py.split_on].
  destruct (Ascii.eqb "." c); [discriminate|].
  cbn [Nat.add]. intros H. now rewrite (IH H).
Qed.

(** X16. The identifier unpacks into [(domain, service)] exactly when it is
    [domain], a dot, [service], with no other dot: the two parts put back
    around a dot give the identifier again. *)
Theorem split_service_round_trip (s domain service : string) :
  split_service s = Ok (domain, service)
  <-> s = (domain ++ "." ++ service)%string
      /\ Py.count_char "." domain = O /\ Py.count_char "." service = O.
Proof.
  split.
  - unfold split_service. intros H.
    pose proof (split_dot_join s) as Hj. pose proof (split_dot_pieces s) as Hp.
    destruct (Py.split_dot s) as [|a [|b [|c l]]]; try discriminate.
    injection H as -> ->.
    pose proof (Forall_inv Hp) as Ha.
    pose proof (Forall_inv (Forall_inv_tail Hp)) as Hb.
    cbn [join_dot] in Hj. now repeat split.
  - intros (-> & Hd & Hs). unfold split_service.
    change (domain ++ "." ++ service)%string with (domain ++ String "." service)%string.
    now rewrite (split_dot_at_first_dot _ _ Hd), (split_dot_undotted _ Hs).
Qed.

End ServiceIdentifier.

(* ===================================================================== *)
(** * More on the polling loop *)
(* ===================================================================== *)

Section LoopMore.

Variable self : scheduler.

Lemma check_advance_days_no_hit (remaining : Z) (days : list Z) (w : world) :
  ~ In remaining days ->
  check_advance_days self remaining days w = (Ok tt, w).
Proof.
  induction days as [|d rest IH]; [reflexivity|].
  intros Hin. cbn [check_advance_days].
  destruct (Z.eqb_spec remaining d) as [->|Hd].
  - exfalso. apply Hin. now left.
  - cbn [when]. unfold bind at 1. cbn [ret]. apply IH.
    intros H. apply Hin. now right.
Qed.

Lemma poll_once_no_hit (w : world) :
  ~ In (remaining_days_total self (clock w (reads w))) (advance_days self) ->
  exists w' : world,
    poll_once self w = (Ok tt, w')
    /\ trace w' = (trace w ++ [Sleep 3600])%list
    /\ requests w' = requests w
    /\ reads w' = S (reads w).
Proof.
  intros Hin. unfold poll_once.
  eexists. split.
  - unfold bind at 1. cbn [now]. unfold bind at 1.
    rewrite (check_advance_days_no_hit _ _ _ Hin). reflexivity.
  - now repeat split.
Qed.

(** X17. When every offset is positive, a poll made at the expiry instant or
    later sends nothing: it reads the clock and sleeps for an hour. The
    loop never sends the "expires today" or the "expired" message. *)
Theorem no_notification_from_expiry_on (w : world) :
  Forall (fun d => 0 < d) (advance_days self) ->
  Calendar.instant (expiry_dt self) <= clock w (reads w) ->
  exists w' : world,
    poll_once self w = (Ok tt, w')
    /\ trace w' = (trace w ++ [Sleep 3600])%list
    /\ requests w' = requests w
    /\ reads w' = S (reads w).
Proof.
  intros Hpos Hlate. apply poll_once_no_hit.
  intros Hin. rewrite Forall_forall in Hpos. apply Hpos in Hin.
  unfold remaining_days_total in Hin.
  pose proof (days_remaining_bounds (clock w (reads w))
                (Calendar.instant (expiry_dt self))) as Hb.
  pose proof us_per_day_pos. nia.
Qed.

Lemma checkpoints_hit_nodup (remaining : Z) (days : list Z) :
  NoDup days ->
  checkpoints_hit remaining days = (if in_dec Z.eq_dec remaining days then [remaining] else []).
Proof.
  unfold checkpoints_hit.
  induction 1 as [|d rest Hnotin Hnodup IH]; [reflexivity|].
  cbn [filter].
  destruct (Z.eqb_spec remaining d) as [->|Hd].
  - rewrite IH.
    destruct (in_dec Z.eq_dec d rest) as [Hin|_]; [contradiction|].
    destruct (in_dec Z.eq_dec d (d :: rest)) as [_|Hn]; [reflexivity|].
    exfalso. apply Hn. now left.
  - rewrite IH.
    destruct (in_dec Z.eq_dec remaining rest) as [Hin|Hn];
      destruct (in_dec Z.eq_dec remaining (d :: rest)) as [Hin'|Hn'];
      try reflexivity.
    + exfalso. apply Hn'. now right.
    + destruct Hin' as [Heq|Hin']; [congruence | contradiction].
Qed.

(** X18. With offsets that are pairwise distinct, a poll sends at most one
    notification: the one for the days remaining when that number is an
    offset, none otherwise; so it makes no more than [push_count]
    requests. *)
Theorem poll_sends_at_most_one (domain service : string) (w : world) :
  Py.truthy_opt (hass_token self) = true ->
  split_service (notify_service self) = Ok (domain, service) ->
  NoDup (advance_days self) ->
  let remaining := remaining_days_total self (clock w (reads w)) in
  exists (w' : world) (evs : list event),
    poll_once self w = (Ok tt, w')
    /\ trace w' = (trace w ++ evs)%list
    /\ effects evs
       = ((if in_dec Z.eq_dec remaining (advance_days self)
           then notification_effects self domain service remaining else [])
          ++ [Sleep 3600])%list
    /\ (List.length (posts evs) <= Z.to_nat (push_count self))%nat.
Proof.
  intros Htok Hsplit Hnodup remaining.
  destruct (poll_once_returns self domain service Htok Hsplit w)
    as (w' & evs & [Hrun Hsteps] & Heff).
  exists w', evs. split; [exact Hrun|]. split; [apply Hsteps|].
  assert (Heff' : effects evs
                  = ((if in_dec Z.eq_dec remaining (advance_days self)
                      then notification_effects self domain service remaining else [])
                     ++ [Sleep 3600])%list).
  { rewrite Heff. unfold poll_effects. fold remaining.
    rewrite (checkpoints_hit_nodup _ _ Hnodup).
    destruct (in_dec Z.eq_dec remaining (advance_days self)); [|reflexivity].
    cbn [flat_map]. now rewrite app_nil_r. }
  split; [exact Heff'|].
  rewrite <- posts_effects, Heff', posts_app.
  destruct (in_dec Z.eq_dec remaining (advance_days self)).
  - unfold notification_effects.
    rewrite posts_attempt_pattern, length_app, repeat_length. cbn. lia.
  - cbn. lia.
Qed.

Hypothesis token_present : Py.truthy_opt (hass_token self) = true.
Hypothesis no_target : Py.truthy (notify_service self) = false.

Lemma send_push_no_target_logs (message : string) : logs_only (_send_push self message).
Proof.
  unfold _send_push. rewrite token_present, no_target. cbn [negb orb].
  apply logs_only_log.
Qed.

Lemma check_advance_days_no_target_logs (remaining : Z) (days : list Z) :
  logs_only (check_advance_days self remaining days).
Proof.
  induction days as [|d rest IH]; [apply logs_only_ret|].
  cbn [check_advance_days]. apply logs_only_bind; [|exact IH].
  apply logs_only_when, send_push_no_target_logs.
Qed.

Lemma polling_no_target (n : nat) :
  forall w : world,
    exists (w' : world) (evs : list event),
      returns (polling self n) w tt n evs w'
      /\ effects evs = repeat (Sleep 3600) n.
Proof.
  induction n as [|n IH]; intros w.
  - exists w, []. split; [apply returns_ret | reflexivity].
  - cbn [polling]. unfold poll_once.
    destruct (returns_now w) as (w1 & R1).
    destruct (check_advance_days_no_target_logs
                (remaining_days_total self (clock w (reads w))) (advance_days self) w1)
      as (w2 & logs & R2 & L2).
    destruct (returns_sleep 3600 w2) as (w3 & R3).
    destruct (IH w3) as (w4 & rest & R4 & E4).
    exists w4, (([] ++ logs ++ [Sleep 3600]) ++ rest)%list.
    split.
    + eapply returns_bind;
        [chain R1; chain R2; exact R3 | exact R4 | reflexivity | reflexivity].
    + cbn [app]. rewrite !effects_app, E4, (proj1 (logs_no_effects _ L2)). reflexivity.
Qed.

Lemma count_http_sleeps (seconds : Z) (n : nat) :
  count_http (repeat (Sleep seconds) n) = O.
Proof. unfold count_http. induction n as [|n IH]; [reflexivity | exact IH]. Qed.

(** X19. With the token present but an empty [notify_service] the scheduler
    runs its loop all the same and never makes a request: apart from
    error lines in the log, all it does is sleep an hour per poll. *)
Theorem empty_service_never_requests (n : nat) (w : world) :
  exists (w' : world) (evs : list event),
    schedule_notifications self n w = (Ok Polling, w')
    /\ trace w' = (trace w ++ evs)%list
    /\ effects evs = repeat (Sleep 3600) n
    /\ requests w' = requests w.
Proof.
  unfold schedule_notifications. rewrite token_present. cbn [negb].
  unfold send_current_status_notification.
  destruct (returns_now w) as (w0 & R0).
  destruct (send_push_no_target_logs
              (_compose_message (remaining_days_total self (clock w (reads w)))) w0)
    as (w1 & logs & R1 & L1).
  destruct (polling_no_target n w1) as (w2 & evs & R2 & E2).
  exists w2, (([] ++ logs) ++ (evs ++ []))%list.
  assert (R : returns
                ((t <- now ;; _send_push self (_compose_message (remaining_days_total self t))) ;;
                 polling self n ;; ret Polling)
                w Polling ((1 + 0) + (n + 0)) (([] ++ logs) ++ (evs ++ [])) w2).
  { eapply returns_bind; [| |reflexivity|reflexivity].
    - chain R0. exact R1.
    - chain R2. apply returns_ret. }
  destruct R as [Hrun (_ & _ & _ & Hq & Ht)].
  split; [exact Hrun|]. split; [exact Ht|].
  assert (Heff : effects (([] ++ logs) ++ evs ++ []) = repeat (Sleep 3600) n).
  { cbn [app]. rewrite app_nil_r, effects_app, E2, (proj1 (logs_no_effects _ L1)).
    reflexivity. }
  split; [exact Heff|].
  now rewrite Hq, <- count_http_effects, Heff, count_http_sleeps.
Qed.

End LoopMore.

(* ===================================================================== *)
(** * The listing of mobile apps *)
(* ===================================================================== *)

Section Listing.

(** X20. What the listing keeps: for every entry of the [notify] domain, its
    services named [mobile_app_...], each prefixed with [notify.]. *)
Theorem mobile_services_spec (services : list service_entry) (x : string) :
  In x (mobile_services services)
  <-> exists (svc : service_entry) (name : string),
        In svc services
        /\ svc_domain svc = "notify"
        /\ In name (svc_services svc)
        /\ String.prefix "mobile_app_" name = true
        /\ x = ("notify." ++ name)%string.
Proof.
  unfold mobile_services. rewrite in_flat_map. split.
  - intros (svc & Hsvc & Hx).
    destruct (String.eqb_spec (svc_domain svc) "notify") as [Hd|]; [|contradiction].
    apply in_map_iff in Hx. destruct Hx as (name & <- & Hname).
    apply filter_In in Hname. destruct Hname as [Hin Hpre].
    now exists svc, name.
  - intros (svc & name & Hsvc & Hd & Hin & Hpre & ->).
    exists svc. split; [exact Hsvc|].
    rewrite Hd. cbn [String.eqb Ascii.eqb Bool.eqb].
    apply in_map_iff. exists name. split; [reflexivity|].
    apply filter_In. now split.
Qed.

Variable token : string.

Lemma log_lines_logs (found : list string) :
  logs_only (fold_right (fun _ k => log INFO "  %s" ;; k) (ret tt) found).
Proof.
  induction found as [|s found IH]; [apply logs_only_ret|].
  cbn [fold_right]. apply logs_only_bind; [apply logs_only_log | exact IH].
Qed.

Lemma listing_report_logs (found : list string) :
  logs_only (match found with
             | [] => log INFO "No mobile apps found."
             | _ => log INFO "Available mobile apps:" ;;
                    fold_right (fun _ k => log INFO "  %s" ;; k) (ret tt) found
             end).
Proof.
  destruct found as [|s found]; [apply logs_only_log|].
  apply logs_only_bind; [apply logs_only_log | apply log_lines_logs].
Qed.

(** The end of the loop: the error line and the empty list. *)
Lemma unavailable_returns (w : world) :
  exists w' : world,
    returns (log ERROR "Supervisor API unavailable after %d attempts." ;; ret (@nil string))
      w [] 0 [Log ERROR "Supervisor API unavailable after %d attempts."] w'.
Proof.
  destruct (returns_log ERROR "Supervisor API unavailable after %d attempts." w) as [w1 R1].
  exists w1. chain R1. apply returns_ret.
Qed.

(** One failed attempt: the request, the warning, the sleep, and the
    loop goes on with one attempt less and the next number. *)
Lemma list_attempts_failure (todo : nat) (attempt : Z) (w : world) :
  is_failure (peer w (requests w)) = true ->
  exists w' : world,
    steps w 0
      [listing_request token;
       Log WARNING "Attempt %d/%d: Supervisor API not ready (%s). Retrying in %ds...";
       Sleep (5 * attempt)] w'
    /\ list_attempts token (S todo) attempt w
       = list_attempts token todo (attempt + 1) w'.
Proof.
  intros Hfail.
  destruct (returns_http (listing_request token) w eq_refl) as [w1 [H1 S1]].
  destruct (returns_log WARNING
              "Attempt %d/%d: Supervisor API not ready (%s). Retrying in %ds..." w1)
    as [w2 [H2 S2]].
  destruct (returns_sleep (5 * attempt) w2) as [w3 [H3 S3]].
  exists w3. split.
  - exact (steps_trans _ _ _ _ _ _ _ S1 (steps_trans _ _ _ _ _ _ _ S2 S3)).
  - cbn [list_attempts]. unfold listing_request in H1.
    rewrite (bind_ok _ _ _ _ _ H1).
    destruct (peer w (requests w)) as [status_code text json| |];
      cbn [is_failure] in Hfail; try discriminate; try rewrite Hfail;
      rewrite (bind_ok _ _ _ _ _ H2), (bind_ok _ _ _ _ _ H3); reflexivity.
Qed.

Lemma list_attempts_retries (k : nat) :
  forall (todo : nat) (attempt : Z) (w : world),
    (forall i : nat, (i < k)%nat -> is_failure (peer w (i + requests w)%nat) = true) ->
    exists (w' : world) (evs : list event),
      steps w 0 evs w'
      /\ effects evs = retry_pattern token attempt k
      /\ list_attempts token (k + todo) attempt w
         = list_attempts token todo (attempt + Z.of_nat k) w'.
Proof.
  induction k as [|k IH]; intros todo attempt w Hfail.
  - exists w, []. split; [apply steps_refl|]. split; [reflexivity|].
    now rewrite Z.add_0_r.
  - destruct (list_attempts_failure (k + todo) attempt w (Hfail O ltac:(lia)))
      as (w1 & S1 & E1).
    destruct (IH todo (attempt + 1) w1) as (w2 & evs & S2 & Eff & E2).
    { intros i Hi. destruct S1 as (_ & P1 & _ & Q1 & _).
      rewrite P1, Q1. cbn.
      replace (i + S (requests w))%nat with (S i + requests w)%nat by lia.
      apply Hfail. lia. }
    eexists w2, _. split; [exact (steps_trans _ _ _ _ _ _ _ S1 S2)|]. split.
    + rewrite effects_app, Eff. reflexivity.
    + cbn [Nat.add]. rewrite E1, E2. f_equal. lia.
Qed.

Lemma count_http_retry_pattern (attempt : Z) (k : nat) :
  count_http (retry_pattern token attempt k) = k.
Proof.
  unfold count_http. revert attempt.
  induction k as [|k IH]; intros attempt; [reflexivity|].
  cbn [retry_pattern filter is_http listing_request List.length]. now rewrite IH.
Qed.

Lemma posts_retry_pattern (attempt : Z) (k : nat) :
  posts (retry_pattern token attempt k) = [].
Proof.
  unfold posts. revert attempt.
  induction k as [|k IH]; intros attempt; [reflexivity|].
  cbn [retry_pattern filter is_post listing_request]. apply IH.
Qed.

(** An attempt answered by a response that [raise_for_status] accepts:
    the listing is filtered, logged and returned. *)
Lemma list_attempts_success (todo : nat) (attempt : Z) (w : world)
    (status_code : Z) (text : string) (json : list service_entry) :
  peer w (requests w) = Response status_code text json ->
  is_failure (Response status_code text json) = false ->
  exists (w' : world) (evs : list event),
    returns (list_attempts token (S todo) attempt) w (mobile_services json) 0 evs w'
    /\ effects evs = [listing_request token].
Proof.
  intros Hpeer Hgood.
  destruct (returns_http (listing_request token) w eq_refl) as [w1 R1].
  rewrite Hpeer in R1.
  destruct (listing_report_logs (mobile_services json) w1) as (w2 & logs & R2 & L2).
  exists w2, ([listing_request token] ++ logs ++ [])%list. split.
  - cbn [list_attempts]. chain R1. cbv beta iota zeta.
    cbn [is_failure] in Hgood. rewrite Hgood.
    chain R2. apply returns_ret.
  - rewrite !effects_app, (proj1 (logs_no_effects _ L2)). reflexivity.
Qed.

(** An attempt that raises anything but a [RequestException]: logged, and
    the loop is left at once. *)
Lemma list_attempts_unexpected (todo : nat) (attempt : Z) (w : world) :
  peer w (requests w) = OtherException ->
  exists (w' : world) (evs : list event),
    returns (list_attempts token (S todo) attempt) w [] 0 evs w'
    /\ effects evs = [listing_request token].
Proof.
  intros Hpeer.
  destruct (returns_http (listing_request token) w eq_refl) as [w1 R1].
  rewrite Hpeer in R1.
  destruct (returns_log ERROR
              "Unexpected error while querying Supervisor services: %s" w1) as [w2 R2].
  destruct (unavailable_returns w2) as [w3 R3].
  eexists w3, _. split.
  - cbn [list_attempts]. chain R1. chain R2. exact R3.
  - reflexivity.
Qed.

Hypothesis token_present : Py.truthy token = true.

Lemma list_mobile_apps_unfold (w : world) :
  list_mobile_apps (Some token) w = list_attempts token 5 1 w.
Proof. unfold list_mobile_apps. now rewrite token_present. Qed.

(** X21. When the first five answers are failures (a [RequestException] or a
    status from 400 to 599) the listing gives up with the empty list
    after exactly five requests, having slept 5, 10, 15, 20 and 25
    seconds, the last sleep included. *)
Theorem listing_gives_up_after_five_failures (w : world) :
  (forall i : nat, (i < 5)%nat -> is_failure (peer w (i + requests w)%nat) = true) ->
  exists (w' : world) (evs : list event),
    list_mobile_apps (Some token) w = (Ok [], w')
    /\ trace w' = (trace w ++ evs)%list
    /\ effects evs = retry_pattern token 1 5
    /\ requests w' = (5 + requests w)%nat.
Proof.
  intros Hfail. rewrite list_mobile_apps_unfold.
  destruct (list_attempts_retries 5 0 1 w Hfail) as (w1 & evs & S1 & Eff & E1).
  cbn [Nat.add] in E1. rewrite E1. cbn [list_attempts].
  destruct (unavailable_returns w1) as [w2 [Hrun S2]].
  exists w2, (evs ++ [Log ERROR "Supervisor API unavailable after %d attempts."])%list.
  split; [exact Hrun|].
  destruct (steps_trans _ _ _ _ _ _ _ S1 S2) as (_ & _ & _ & Hq & Ht).
  split; [exact Ht|].
  assert (Heff : effects (evs ++ [Log ERROR "Supervisor API unavailable after %d attempts."])
                 = retry_pattern token 1 5).
  { rewrite effects_app, Eff. cbn [effects filter is_log negb]. apply app_nil_r. }
  split; [exact Heff|].
  now rewrite Hq, <- count_http_effects, Heff, count_http_retry_pattern.
Qed.

(** X22. When an attempt within the first five is answered by a response that
    is not an error status, after failures only, the listing returns the
    mobile services of that answer and makes no further request. *)
Theorem listing_returns_first_good_answer (k : nat) (w : world)
    (status_code : Z) (text : string) (json : list service_entry) :
  (k < 5)%nat ->
  (forall i : nat, (i < k)%nat -> is_failure (peer w (i + requests w)%nat) = true) ->
  peer w (k + requests w)%nat = Response status_code text json ->
  is_failure (Response status_code text json) = false ->
  exists (w' : world) (evs : list event),
    list_mobile_apps (Some token) w = (Ok (mobile_services json), w')
    /\ trace w' = (trace w ++ evs)%list
    /\ effects evs = (retry_pattern token 1 k ++ [listing_request token])%list
    /\ requests w' = (S k + requests w)%nat.
Proof.
  intros Hk Hfail Hpeer Hgood. rewrite list_mobile_apps_unfold.
  destruct (list_attempts_retries k (S (4 - k)) 1 w Hfail) as (w1 & evs1 & S1 & Eff1 & E1).
  replace (k + S (4 - k))%nat with 5%nat in E1 by lia. rewrite E1.
  assert (Hq1 : requests w1 = (k + requests w)%nat).
  { destruct S1 as (_ & _ & _ & Hq & _).
    now rewrite Hq, <- count_http_effects, Eff1, count_http_retry_pattern. }
  assert (Hpeer1 : peer w1 (requests w1) = Response status_code text json).
  { destruct S1 as (_ & P1 & _). now rewrite P1, Hq1. }
  destruct (list_attempts_success (4 - k) (1 + Z.of_nat k) w1 _ _ _ Hpeer1 Hgood)
    as (w2 & evs2 & [Hrun S2] & Eff2).
  exists w2, (evs1 ++ evs2)%list. split; [exact Hrun|].
  destruct (steps_trans _ _ _ _ _ _ _ S1 S2) as (_ & _ & _ & Hq & Ht).
  split; [exact Ht|].
  assert (Heff : effects (evs1 ++ evs2)
                 = (retry_pattern token 1 k ++ [listing_request token])%list)
    by now rewrite effects_app, Eff1, Eff2.
  split; [exact Heff|].
  rewrite Hq, <- count_http_effects, Heff, count_http_app, count_http_retry_pattern.
  cbn. lia.
Qed.

(** X23. An exception other than a [RequestException] ends the listing at
    once: the empty list is returned and no attempt is made after it. *)
Theorem listing_stops_on_unexpected_error (k : nat) (w : world) :
  (k < 5)%nat ->
  (forall i : nat, (i < k)%nat -> is_failure (peer w (i + requests w)%nat) = true) ->
  peer w (k + requests w)%nat = OtherException ->
  exists (w' : world) (evs : list event),
    list_mobile_apps (Some token) w = (Ok [], w')
    /\ trace w' = (trace w ++ evs)%list
    /\ effects evs = (retry_pattern token 1 k ++ [listing_request token])%list
    /\ requests w' = (S k + requests w)%nat.
Proof.
  intros Hk Hfail Hpeer. rewrite list_mobile_apps_unfold.
  destruct (list_attempts_retries k (S (4 - k)) 1 w Hfail) as (w1 & evs1 & S1 & Eff1 & E1).
  replace (k + S (4 - k))%nat with 5%nat in E1 by lia. rewrite E1.
  assert (Hq1 : requests w1 = (k + requests w)%nat).
  { destruct S1 as (_ & _ & _ & Hq & _).
    now rewrite Hq, <- count_http_effects, Eff1, count_http_retry_pattern. }
  assert (Hpeer1 : peer w1 (requests w1) = OtherException).
  { destruct S1 as (_ & P1 & _). now rewrite P1, Hq1. }
  destruct (list_attempts_unexpected (4 - k) (1 + Z.of_nat k) w1 Hpeer1)
    as (w2 & evs2 & [Hrun S2] & Eff2).
  exists w2, (evs1 ++ evs2)%list. split; [exact Hrun|].
  destruct (steps_trans _ _ _ _ _ _ _ S1 S2) as (_ & _ & _ & Hq & Ht).
  split; [exact Ht|].
  assert (Heff : effects (evs1 ++ evs2)
                 = (retry_pattern token 1 k ++ [listing_request token])%list)
    by now rewrite effects_app, Eff1, Eff2.
  split; [exact Heff|].
  rewrite Hq, <- count_http_effects, Heff, count_http_app, count_http_retry_pattern.
  cbn. lia.
Qed.

Lemma mobile_services_prefixed (services : list service_entry) :
  Forall (fun x => String.prefix "notify.mobile_app_" x = true)
         (mobile_services services).
Proof.
  unfold mobile_services. apply Forall_forall. intros x Hx.
  apply in_flat_map in Hx. destruct Hx as (svc & _ & Hx).
  destruct (String.eqb (svc_domain svc) "notify"); [|contradiction].
  apply in_map_iff in Hx. destruct Hx as (name & <- & Hname).
  apply filter_In in Hname. exact (proj2 Hname).
Qed.

Lemma list_attempts_bounded (todo : nat) :
  forall (attempt : Z) (w : world),
    exists (found : list string) (w' : world) (evs : list event),
      returns (list_attempts token todo attempt) w found 0 evs w'
      /\ (count_http evs <= todo)%nat
      /\ (todo <> O -> 1 <= count_http evs)%nat
      /\ posts evs = []
      /\ Forall (fun x => String.prefix "notify.mobile_app_" x = true) found.
Proof.
  induction todo as [|todo IH]; intros attempt w.
  - destruct (unavailable_returns w) as [w' R].
    exists [], w', [Log ERROR "Supervisor API unavailable after %d attempts."].
    split; [exact R|]. cbn. repeat split; auto. congruence.
  - destruct (is_failure (peer w (requests w))) eqn:Hfail.
    + destruct (list_attempts_failure todo attempt w Hfail) as (w1 & S1 & E1).
      destruct (IH (attempt + 1) w1) as (found & w2 & evs & [Hrun S2] & Hle & _ & Hp & Hf).
      exists found, w2,
        ([listing_request token;
          Log WARNING "Attempt %d/%d: Supervisor API not ready (%s). Retrying in %ds...";
          Sleep (5 * attempt)] ++ evs)%list.
      split; [split|].
      * rewrite E1. exact Hrun.
      * exact (steps_trans _ _ _ _ _ _ _ S1 S2).
      * rewrite count_http_app, posts_app, Hp. cbn. repeat split; auto; lia.
    + destruct (peer w (requests w)) as [status_code text json| |] eqn:Hpeer;
        [| discriminate |].
      * destruct (list_attempts_success todo attempt w _ _ _ Hpeer Hfail)
          as (w' & evs & R & Eff).
        exists (mobile_services json), w', evs. split; [exact R|].
        rewrite <- count_http_effects, <- posts_effects, Eff. cbn.
        repeat split; auto; try lia. apply mobile_services_prefixed.
      * destruct (list_attempts_unexpected todo attempt w Hpeer) as (w' & evs & R & Eff).
        exists [], w', evs. split; [exact R|].
        rewrite <- count_http_effects, <- posts_effects, Eff. cbn.
        repeat split; auto; lia.
Qed.

(** X24. With a token the listing always returns, whatever the peer answers:
    it never raises, makes at least one and at most five requests, all of
    them GET, does not read the clock, and every name it returns starts
    with [notify.mobile_app_]. *)
Theorem listing_is_bounded (w : world) :
  exists (found : list string) (w' : world) (evs : list event),
    list_mobile_apps (Some token) w = (Ok found, w')
    /\ trace w' = (trace w ++ evs)%list
    /\ (1 <= count_http evs <= 5)%nat
    /\ posts evs = []
    /\ reads w' = reads w
    /\ Forall (fun x => String.prefix "notify.mobile_app_" x = true) found.
Proof.
  rewrite list_mobile_apps_unfold.
  destruct (list_attempts_bounded 5 1 w)
    as (found & w' & evs & [Hrun (_ & _ & Hr & _ & Ht)] & Hle & Hge & Hp & Hf).
  exists found, w', evs. repeat split; auto.
Qed.

End Listing.

(* ===================================================================== *)
(** * The whole program *)
(* ===================================================================== *)

Section MainMore.

Variable isoparse_lib : string -> option Calendar.datetime.
Variable dtparse_lib : string -> bool -> option Calendar.datetime.
Variable strptime_lib : string -> string -> option Calendar.datetime.
Variable pytz_timezone : string -> option Calendar.tzinfo.

Local Abbreviation load_options :=
  (load_config isoparse_lib dtparse_lib strptime_lib pytz_timezone).
Local Abbreviation run_main :=
  (main isoparse_lib dtparse_lib strptime_lib pytz_timezone).

(** X25. A configured date that does not resolve stops the program before it
    does anything: [main] raises the [ValueError] that names the date, with
    no log line, no clock reading and no request. *)
Theorem main_stops_on_unresolved_date
    (o : options) (token : option string) (n : nat) (w : world) (tz : Calendar.tzinfo) :
  pytz_timezone "UTC" = Some tz ->
  Resolver.parse_date isoparse_lib dtparse_lib strptime_lib
    (Py.strip (setdefault (opt_expiry_date o) "31/12/2025"))
    (setdefault (opt_date_format o) "auto") = None ->
  run_main o token n w
  = (Raise (ValueError ("Cannot parse date: "
                        ++ setdefault (opt_expiry_date o) "31/12/2025")), w).
Proof.
  intros Htz Hdate. unfold main, load_config.
  now rewrite (parse_expiry_date_unresolved _ _ _ _ _ _ _ _ _ Htz Hdate).
Qed.

Lemma schedule_returns (self : scheduler) (domain service : string) (n : nat) (w : world) :
  Py.truthy_opt (hass_token self) = true ->
  split_service (notify_service self) = Ok (domain, service) ->
  exists (w' : world) (startup polls : list event),
    returns (schedule_notifications self n) w Polling ((1 + 0) + (n + 0))
      (([] ++ startup) ++ (polls ++ [])) w'
    /\ effects startup
       = notification_effects self domain service
           (remaining_days_total self (clock w (reads w)))
    /\ effects polls
       = flat_map (fun k => poll_effects self domain service (clock w (S k + reads w)%nat))
                  (seq 0 n).
Proof.
  intros Htok Hsplit.
  unfold schedule_notifications. rewrite Htok. cbn [negb].
  unfold send_current_status_notification.
  destruct (returns_now w) as (w0 & R0).
  destruct (send_push_returns self
              (_compose_message (remaining_days_total self (clock w (reads w))))
              domain service w0 Htok Hsplit) as (w1 & e1 & R1 & E1).
  destruct (polling_returns self domain service Htok Hsplit n w1) as (w2 & e2 & R2 & E2).
  exists w2, e1, e2. split; [|split].
  - eapply returns_bind; [| |reflexivity|reflexivity].
    + chain R0. exact R1.
    + chain R2. apply returns_ret.
  - exact E1.
  - rewrite E2.
    destruct R0 as [_ (Hc0 & _ & Hr0 & _)].
    destruct R1 as [_ (Hc1 & _ & Hr1 & _)].
    apply flat_map_ext. intros k. rewrite Hc1, Hc0, Hr1, Hr0.
    now replace (k + (0 + (1 + reads w)))%nat with (S k + reads w)%nat by lia.
Qed.

(** X26. The program with a token and a target of the form [domain.service]:
    first the listing, of one to five GET requests and no POST; then,
    after one clock reading of its own, the scheduler's startup
    notification for the days remaining at the next reading; then the
    polls, on the readings after that. *)
Theorem main_with_token
    (o : options) (token : string) (cfg : config) (domain service : string)
    (n : nat) (w : world) :
  load_options o = Ok cfg ->
  Py.truthy token = true ->
  split_service (cfg_notify_service cfg) = Ok (domain, service) ->
  let self := mkScheduler cfg (Some token) (cfg_notify_service cfg) (cfg_push_count cfg)
                (cfg_push_interval_min cfg) (cfg_advance_days cfg) (cfg_expiry_dt cfg) in
  exists (w' : world) (listing startup polls : list event),
    run_main o (Some token) n w = (Ok Polling, w')
    /\ trace w' = (trace w ++ listing ++ startup ++ polls)%list
    /\ posts listing = []
    /\ (1 <= count_http listing <= 5)%nat
    /\ effects startup
       = notification_effects self domain service
           (remaining_days_total self (clock w (S (reads w))))
    /\ effects polls
       = flat_map (fun k => poll_effects self domain service
                              (clock w (S (S k) + reads w)%nat))
                  (seq 0 n).
Proof.
  intros Hcfg Htok Hsplit self.
  unfold main. rewrite Hcfg.
  destruct (returns_log INFO
              "Loaded config: expiry=%s, advance_days=%s, notify=%s, debug=%s" w)
    as (w1 & R1).
  destruct (list_attempts_bounded token 5 1 w1)
    as (found & w2 & e2 & R2 & Hle & Hge & Hp2 & _).
  assert (R2' : returns (list_mobile_apps (Some token)) w1 found 0 e2 w2).
  { destruct R2 as [H2 S2]. split; [|exact S2].
    now rewrite (list_mobile_apps_unfold token Htok). }
  clear R2. rename R2' into R2.
  destruct (scheduler_init_returns (Some token) cfg w2) as (w3 & e3 & R3 & L3).
  fold self in R3.
  destruct (returns_now w3) as (w4 & R4).
  destruct (returns_log INFO "Tuya IOT Core expires in %d days" w4) as (w5 & R5).
  destruct (schedule_returns self domain service n w5 Htok Hsplit)
    as (w6 & startup & polls & R6 & E6 & P6).
  pose (listing := ([Log INFO "Loaded config: expiry=%s, advance_days=%s, notify=%s, debug=%s"]
                    ++ e2 ++ e3 ++ [] ++ [Log INFO "Tuya IOT Core expires in %d days"])%list).
  exists w6, listing, startup, polls.
  assert (R : returns
                (log INFO "Loaded config: expiry=%s, advance_days=%s, notify=%s, debug=%s" ;;
                 list_mobile_apps (Some token) ;;
                 self0 <- scheduler_init cfg (Some token) ;;
                 now ;;
                 log INFO "Tuya IOT Core expires in %d days" ;;
                 schedule_notifications self0 n)
                w Polling (0 + (0 + (0 + (1 + (0 + ((1 + 0) + (n + 0)))))))
                ([Log INFO "Loaded config: expiry=%s, advance_days=%s, notify=%s, debug=%s"]
                 ++ e2 ++ e3 ++ [] ++ [Log INFO "Tuya IOT Core expires in %d days"]
                 ++ ([] ++ startup) ++ (polls ++ []))
                w6).
  { chain R1. chain R2. chain R3. chain R4. chain R5. exact R6. }
  destruct R as [Hrun (_ & _ & _ & _ & Ht)].
  split; [exact Hrun|]. split; [|split; [|split; [|split]]].
  - rewrite Ht. subst listing. cbn [app]. rewrite app_nil_r.
    f_equal. rewrite <- !app_assoc. cbn [app]. reflexivity.
  - subst listing. cbn [app posts filter is_post].
    fold (posts (e2 ++ e3 ++ [Log INFO "Tuya IOT Core expires in %d days"])).
    rewrite !posts_app, Hp2, (proj2 (logs_no_effects _ L3)). reflexivity.
  - subst listing. cbn [app]. unfold count_http at 1 2. cbn [filter is_http].
    fold (count_http (e2 ++ e3 ++ [Log INFO "Tuya IOT Core expires in %d days"])).
    rewrite !count_http_app, (logs_count_http _ L3). cbn.
    specialize (Hge ltac:(discriminate)). lia.
  - rewrite E6.
    assert (Hw5 : clock w5 = clock w /\ reads w5 = S (reads w)).
    { destruct R1 as [_ (C1 & _ & Rd1 & _)]. destruct R2 as [_ (C2 & _ & Rd2 & _)].
      destruct R3 as [_ (C3 & _ & Rd3 & _)]. destruct R4 as [_ (C4 & _ & Rd4 & _)].
      destruct R5 as [_ (C5 & _ & Rd5 & _)].
      split; [congruence|]. rewrite Rd5, Rd4, Rd3, Rd2, Rd1. reflexivity. }
    destruct Hw5 as [-> ->]. reflexivity.
  - rewrite P6.
    assert (Hw5 : clock w5 = clock w /\ reads w5 = S (reads w)).
    { destruct R1 as [_ (C1 & _ & Rd1 & _)]. destruct R2 as [_ (C2 & _ & Rd2 & _)].
      destruct R3 as [_ (C3 & _ & Rd3 & _)]. destruct R4 as [_ (C4 & _ & Rd4 & _)].
      destruct R5 as [_ (C5 & _ & Rd5 & _)].
      split; [congruence|]. rewrite Rd5, Rd4, Rd3, Rd2, Rd1. reflexivity. }
    destruct Hw5 as [-> ->].
    apply flat_map_ext. intros k.
    now replace (S k + S (reads w))%nat with (S (S k) + reads w)%nat by lia.
Qed.

End MainMore.

(* ===================================================================== *)
(** * The further properties on scenarios *)
(* ===================================================================== *)

Section WitnessesMore.
Import Calendar Scenario ScenarioMore.

(** ["May-13-2025"] under ["auto"]: the first component is not a number. *)
Lemma auto_requires_two_integers_witness :
  Sample.parse_expiry_date "May-13-2025" (Some "12:00") "UTC" "auto"
  = Raise (ValueError "Cannot parse date: May-13-2025").
Proof.
  exact (auto_requires_two_integers
           Sample.isoparse Sample.dtparse Sample.strptime Sample.pytz_timezone
           "May-13-2025" (Some "12:00") "UTC" "auto" utc
           eq_refl eq_refl eq_refl eq_refl).
Defined.

(** ["13052025"] under ["auto"]: no separator at all. *)
Lemma auto_without_separator_fails_witness :
  Sample.parse_expiry_date "13052025" (Some "12:00") "UTC" "auto"
  = Raise (ValueError "Cannot parse date: 13052025").
Proof.
  exact (auto_without_separator_fails
           Sample.isoparse Sample.dtparse Sample.strptime Sample.pytz_timezone
           "13052025" (Some "12:00") "UTC" "auto" utc
           eq_refl eq_refl eq_refl eq_refl).
Defined.


(** A format hint in capitals is not ["iso"]: it selects ["auto"]. *)
Lemma unknown_format_is_auto_witness :
  Sample.parse_expiry_date "13/05/2025" (Some "12:00") "UTC" "ISO"
  = Sample.parse_expiry_date "13/05/2025" (Some "12:00") "UTC" "auto".
Proof.
  exact (unknown_format_is_auto
           Sample.isoparse Sample.dtparse Sample.strptime Sample.pytz_timezone
           "13/05/2025" (Some "12:00") "UTC" "ISO" eq_refl).
Defined.

Lemma resolved_datetime_well_formed_witness :
  valid (mkDatetime 2025 5 13 12 30 0 0) = true
  /\ Sample.pytz_timezone "UTC" = Some utc.
Proof.
  pose proof (resolved_datetime_well_formed
                Sample.isoparse Sample.dtparse Sample.strptime Sample.pytz_timezone
                "13/05/2025" (Some "12:30") "UTC" "auto"
                (localize utc (mkDatetime 2025 5 13 12 30 0 0)) eq_refl)
    as (Hv & _ & _ & Hz & _).
  exact (conj Hv Hz).
Defined.


Lemma date_padding_ignored_witness :
  Sample.parse_expiry_date "  13/05/2025 " (Some "12:30") "UTC" "auto"
  = Ok (localize utc (mkDatetime 2025 5 13 12 30 0 0)).
Proof.
  exact (proj2 (date_padding_ignored
                  Sample.isoparse Sample.dtparse Sample.strptime Sample.pytz_timezone
                  "  " "13/05/2025" " " (Some "12:30") "UTC" "auto"
                  (localize utc (mkDatetime 2025 5 13 12 30 0 0)) eq_refl eq_refl)
           eq_refl).
Defined.

(** No token and a target without a dot: the delivery is skipped, it
    does not raise. *)
Lemma send_push_skips_without_token_or_service_witness :
  exists w' : world,
    _send_push tokenless "hello" start = (Ok tt, w')
    /\ trace w'
       = [Log ERROR "Cannot send notification: missing token or notify_service"]
    /\ requests w' = 0%nat
    /\ reads w' = 0%nat.
Proof.
  exact (send_push_skips_without_token_or_service tokenless "hello" start
           (or_introl eq_refl)).
Defined.

Lemma nonpositive_push_count_sends_nothing_witness :
  _send_push idle "hello" start = (Ok tt, start).
Proof.
  apply (nonpositive_push_count_sends_nothing idle "hello" "notify" "mobile_app_myphone");
    [reflexivity | reflexivity | reflexivity | vm_compute; discriminate].
Defined.

(** Three attempts answered 500, 200, 200: one error line, two successes. *)
Lemma each_attempt_logged_once_witness :
  exists (w' : world) (evs : list event),
    _send_push phone "hello" start = (Ok tt, w')
    /\ trace w' = (trace start ++ evs)%list
    /\ List.length (filter is_info evs) = 2%nat
    /\ List.length (filter is_error evs) = 1%nat.
Proof.
  exact (each_attempt_logged_once phone "hello" "notify" "mobile_app_myphone" start
           eq_refl eq_refl).
Defined.

(** A poll one hour after the expiry, with the default offsets. *)
Lemma no_notification_from_expiry_on_witness :
  exists w' : world,
    poll_once phone after_expiry = (Ok tt, w')
    /\ trace w' = [Sleep 3600]
    /\ requests w' = 0%nat
    /\ reads w' = 1%nat.
Proof.
  apply (no_notification_from_expiry_on phone after_expiry).
  - repeat constructor.
  - vm_compute. discriminate.
Defined.

Lemma default_offsets_distinct : NoDup ADVANCE_DAYS_DEFAULT.
Proof.
  unfold ADVANCE_DAYS_DEFAULT.
  repeat (constructor; [cbn; intuition discriminate|]). constructor.
Qed.

(** A poll with 30 days remaining and the default offsets: one
    notification of three requests. *)
Lemma poll_sends_at_most_one_witness :
  exists (w' : world) (evs : list event),
    poll_once phone start = (Ok tt, w')
    /\ trace w' = (trace start ++ evs)%list
    /\ effects evs
       = [post "Tuya IOT expires in 30 days"; Sleep 60;
          post "Tuya IOT expires in 30 days"; Sleep 60;
          post "Tuya IOT expires in 30 days"; Sleep 3600]
    /\ (List.length (posts evs) <= 3)%nat.
Proof.
  exact (poll_sends_at_most_one phone "notify" "mobile_app_myphone" start
           eq_refl eq_refl default_offsets_distinct).
Defined.

Lemma empty_service_never_requests_witness :
  exists (w' : world) (evs : list event),
    schedule_notifications untargeted 2 start = (Ok Polling, w')
    /\ trace w' = (trace start ++ evs)%list
    /\ effects evs = [Sleep 3600; Sleep 3600]
    /\ requests w' = 0%nat.
Proof.
  exact (empty_service_never_requests untargeted eq_refl eq_refl 2 start).
Defined.

(** Five failures in a row. *)
Lemma listing_gives_up_after_five_failures_witness :
  exists (w' : world) (evs : list event),
    list_mobile_apps (Some "secret") (world_of down) = (Ok [], w')
    /\ trace w' = (trace (world_of down) ++ evs)%list
    /\ effects evs
       = [listing_request "secret"; Sleep 5; listing_request "secret"; Sleep 10;
          listing_request "secret"; Sleep 15; listing_request "secret"; Sleep 20;
          listing_request "secret"; Sleep 25]
    /\ requests w' = 5%nat.
Proof.
  exact (listing_gives_up_after_five_failures "secret" eq_refl (world_of down)
           (fun _ _ => eq_refl)).
Defined.

(** One failure, then a listing. *)
Lemma listing_returns_first_good_answer_witness :
  exists (w' : world) (evs : list event),
    list_mobile_apps (Some "secret") (world_of recovering)
    = (Ok ["notify.mobile_app_myphone"], w')
    /\ trace w' = (trace (world_of recovering) ++ evs)%list
    /\ effects evs
       = [listing_request "secret"; Sleep 5; listing_request "secret"]
    /\ requests w' = 2%nat.
Proof.
  refine (listing_returns_first_good_answer "secret" eq_refl 1 (world_of recovering)
            200 "[...]" listing _ _ eq_refl eq_refl).
  - lia.
  - intros i Hi. assert (i = O) as -> by lia. reflexivity.
Defined.

Lemma listing_stops_on_unexpected_error_witness :
  exists (w' : world) (evs : list event),
    list_mobile_apps (Some "secret") (world_of broken) = (Ok [], w')
    /\ trace w' = (trace (world_of broken) ++ evs)%list
    /\ effects evs = [listing_request "secret"]
    /\ requests w' = 1%nat.
Proof.
  refine (listing_stops_on_unexpected_error "secret" eq_refl 0 (world_of broken)
            _ _ eq_refl).
  - lia.
  - intros i Hi. lia.
Defined.

Lemma listing_is_bounded_witness :
  exists (found : list string) (w' : world) (evs : list event),
    list_mobile_apps (Some "secret") (world_of recovering) = (Ok found, w')
    /\ trace w' = (trace (world_of recovering) ++ evs)%list
    /\ (1 <= count_http evs <= 5)%nat
    /\ posts evs = []
    /\ reads w' = reads (world_of recovering)
    /\ Forall (fun x => String.prefix "notify.mobile_app_" x = true) found.
Proof.
  exact (listing_is_bounded "secret" eq_refl (world_of recovering)).
Defined.

Lemma main_stops_on_unresolved_date_witness :
  main Sample.isoparse Sample.dtparse Sample.strptime Sample.pytz_timezone
    (options_with_date "someday") (Some "secret") 3 start
  = (Raise (ValueError "Cannot parse date: someday"), start).
Proof.
  exact (main_stops_on_unresolved_date
           Sample.isoparse Sample.dtparse Sample.strptime Sample.pytz_timezone
           (options_with_date "someday") (Some "secret") 3 start utc
           eq_refl eq_refl).
Defined.

(** The program with the default options and a token, over one poll. *)
Lemma main_with_token_witness :
  exists (w' : world) (listing startup polls : list event),
    main Sample.isoparse Sample.dtparse Sample.strptime Sample.pytz_timezone
      no_options (Some "secret") 1 (world_of recovering) = (Ok Polling, w')
    /\ trace w' = (trace (world_of recovering) ++ listing ++ startup ++ polls)%list
    /\ posts listing = []
    /\ (1 <= count_http listing <= 5)%nat
    /\ effects startup = [post "Tuya IOT expires in 30 days"]
    /\ effects polls = [post "Tuya IOT expires in 30 days"; Sleep 3600].
Proof.
  exact (main_with_token
           Sample.isoparse Sample.dtparse Sample.strptime Sample.pytz_timezone
           no_options "secret"
           (mkConfig "31/12/2025" (Some "12:00") "auto" "notify.mobile_app_myphone"
              1 60 false ADVANCE_DAYS_DEFAULT expiry)
           "notify" "mobile_app_myphone" 1 (world_of recovering)
           eq_refl eq_refl eq_refl).
Defined.

End WitnessesMore.
